(** * A shallow embedding of the asynchronous API client of [ttt.py]

    The client wraps an analytics HTTP API: it adds the token to the query
    parameters, issues a GET, raises on a non-success status, decodes the
    JSON body and builds dataclass records from it.

    Python values are a tree type, dictionaries are [gmap string value],
    exceptions are a result type, and the client object together with the
    requests put on the wire is the state threaded through every
    operation. *)

From Stdlib Require Import ZArith Ascii String.
From stdpp Require Import gmap strings list fin_maps.

Local Open Scope string_scope.
Local Open Scope Z_scope.

#[local] Set Warnings "-register-all".

(** ** Python values *)

(** What [response.json()] returns and what a caller passes as keyword
    arguments. A float is kept as its IEEE-754 bit pattern: the client never
    computes with one. Dictionary keys are strings (JSON object keys and
    keyword names). *)
Inductive value : Type :=
| VNone
| VBool (b : bool)
| VInt (z : Z)
| VFloat (bits : Z)
| VStr (s : string)
| VList (l : list value)
| VDict (m : gmap string value).

(** ** Exceptions *)

Inductive exn : Type :=
| KeyError (key : string)
| TypeError
| RuntimeError
| HTTPStatusError (status_code : Z) (body : string)
| TransportError (message : string)
| JSONDecodeError.

Inductive result (A : Type) : Type :=
| Ok (a : A)
| Raise (e : exn).
Arguments Ok {A} a.
Arguments Raise {A} e.

#[global] Instance result_ret : MRet result := fun _ a => Ok a.
#[global] Instance result_bind : MBind result := fun _ _ f r =>
  match r with
  | Ok a => f a
  | Raise e => Raise e
  end.

Definition is_Raise {A} (r : result A) : Prop :=
  match r with
  | Ok _ => False
  | Raise _ => True
  end.

(** A list comprehension [[f(x) for x in xs]]: left to right, the first
    exception ends it. *)
Fixpoint comprehension {A B} (f : A -> result B) (xs : list A) : result (list B) :=
  match xs with
  | [] => Ok []
  | x :: xs' =>
      y ← f x;
      ys ← comprehension f xs';
      Ok (y :: ys)
  end.

(** [data[key]] for a string key: only a dict can be subscripted by a
    string; a missing key is a [KeyError]. *)
Definition getitem (data : value) (key : string) : result value :=
  match data with
  | VDict m =>
      match m !! key with
      | Some v => Ok v
      | None => Raise (KeyError key)
      end
  | _ => Raise TypeError
  end.

(** [**data] in a call: the argument must be a mapping. *)
Definition kwargs (data : value) : result (gmap string value) :=
  match data with
  | VDict m => Ok m
  | _ => Raise TypeError
  end.

Fixpoint chars (s : string) : list value :=
  match s with
  | EmptyString => []
  | String c s' => VStr (String c EmptyString) :: chars s'
  end.

(** [for x in data]: a list yields its elements, a dict its keys, a string
    its characters; the other values are not iterable. *)
Definition iter (data : value) : result (list value) :=
  match data with
  | VList l => Ok l
  | VDict m => Ok (VStr <$> (map_to_list m).*1)
  | VStr s => Ok (chars s)
  | _ => Raise TypeError
  end.

(** A dataclass [__init__] called with keywords only: a keyword that is not
    a field is a [TypeError], and so is a field without a keyword (no field
    of these dataclasses has a default, the [Optional] ones included). *)
Definition no_unexpected (fields : list string) (kw : gmap string value) : bool :=
  bool_decide (dom kw ⊆ (list_to_set fields : gset string)).

Definition field (kw : gmap string value) (name : string) : result value :=
  match kw !! name with
  | Some v => Ok v
  | None => Raise TypeError
  end.

(** ** Records *)

Module Column.
Record t : Type := mk {
  name : value;
  type : value;
  codec : value;
  default_value : value;
  jsonpath : value;
  nullable : value;
  normalized_name : value
}.

Definition fields : list string :=
  ["name"; "type"; "codec"; "default_value"; "jsonpath"; "nullable";
   "normalized_name"].

(** The call of [Column] with the keywords [kw]. *)
Definition init (kw : gmap string value) : result t :=
  if no_unexpected fields kw then
    a ← field kw "name";
    b ← field kw "type";
    c ← field kw "codec";
    d ← field kw "default_value";
    e ← field kw "jsonpath";
    f ← field kw "nullable";
    g ← field kw "normalized_name";
    Ok (mk a b c d e f g)
  else Raise TypeError.
End Column.

Module Engine.
Record t : Type := mk {
  engine : value;
  engine_sorting_key : value;
  engine_partition_key : value;
  engine_primary_key : value
}.

Definition fields : list string :=
  ["engine"; "engine_sorting_key"; "engine_partition_key";
   "engine_primary_key"].

(** The call of [Engine] with the keywords [kw]. *)
Definition init (kw : gmap string value) : result t :=
  if no_unexpected fields kw then
    a ← field kw "engine";
    b ← field kw "engine_sorting_key";
    c ← field kw "engine_partition_key";
    d ← field kw "engine_primary_key";
    Ok (mk a b c d)
  else Raise TypeError.
End Engine.

Module DataSource.
Record t : Type := mk {
  id : value;
  name : value;
  engine : Engine.t;
  columns : list Column.t;
  indexes : value;
  new_columns_detected : value;
  quarantine_rows : value
}.

(** The keys [from_dict] reads. *)
Definition fields : list string :=
  ["engine"; "columns"; "id"; "name"; "indexes"; "new_columns_detected";
   "quarantine_rows"].

Definition from_dict (data : value) : result t :=
  e ← getitem data "engine";
  ekw ← kwargs e;
  engine ← Engine.init ekw;
  cs ← getitem data "columns";
  cols ← iter cs;
  columns ← comprehension (fun col => ckw ← kwargs col; Column.init ckw) cols;
  i ← getitem data "id";
  n ← getitem data "name";
  ix ← getitem data "indexes";
  nc ← getitem data "new_columns_detected";
  q ← getitem data "quarantine_rows";
  Ok (mk i n engine columns ix nc q).
End DataSource.

Module Pipe.
Record t : Type := mk {
  type : value;
  id : value;
  name : value;
  description : value;
  endpoint : value;
  url : value
}.

Definition fields : list string :=
  ["type"; "id"; "name"; "description"; "endpoint"; "url"].

(** The call of [Pipe] with the keywords [kw]. *)
Definition init (kw : gmap string value) : result t :=
  if no_unexpected fields kw then
    a ← field kw "type";
    b ← field kw "id";
    c ← field kw "name";
    d ← field kw "description";
    e ← field kw "endpoint";
    f ← field kw "url";
    Ok (mk a b c d e f)
  else Raise TypeError.

Definition from_dict (data : value) : result t :=
  kw ← kwargs data;
  init kw.
End Pipe.

Module PipeData.
Record t : Type := mk {
  meta : value;
  data : value;
  rows : value;
  statistics : value
}.

Definition fields : list string := ["meta"; "data"; "rows"; "statistics"].

(** The call of [PipeData] with the keywords [kw]. *)
Definition init (kw : gmap string value) : result t :=
  if no_unexpected fields kw then
    a ← field kw "meta";
    b ← field kw "data";
    c ← field kw "rows";
    d ← field kw "statistics";
    Ok (mk a b c d)
  else Raise TypeError.

Definition from_dict (data : value) : result t :=
  kw ← kwargs data;
  init kw.
End PipeData.

(** ** The HTTP library

    [httpx] is a dependency, not part of the client: what follows is its
    documented behaviour, as far as the client uses it. *)

Record Request : Type := {
  req_url : string;
  req_params : gmap string value;
  req_timeout : Z;
  req_headers : list (string * string)
}.

(** [json] is what [response.json()] gives: [None] when the body is not
    valid JSON. *)
Record Response : Type := {
  status_code : Z;
  text : string;
  json : option value
}.

(** What comes back for a request: a response, or a transport failure
    (connection, DNS, timeout). *)
Inductive Reply : Type :=
| Answer (r : Response)
| Failure (message : string).

(** The connection pool: the timeout in seconds and the headers given at
    construction, and whether [aclose] has run. *)
Record AsyncClient : Type := {
  timeout : Z;
  headers : list (string * string);
  is_closed : bool
}.

Definition is_success (r : Response) : bool :=
  (200 <=? status_code r) && (status_code r <=? 299).

(** [response.raise_for_status()] *)
Definition raise_for_status (r : Response) : result unit :=
  if is_success r then Ok tt
  else Raise (HTTPStatusError (status_code r) (text r)).

(** [response.json()] *)
Definition decode (r : Response) : result value :=
  match json r with
  | Some v => Ok v
  | None => Raise JSONDecodeError
  end.

(** ** The client *)

Record APIClient : Type := {
  api_url : string;
  token : string;
  client : AsyncClient
}.

(** The client object and every request sent so far, oldest first. *)
Record State : Type := {
  self : APIClient;
  sent : list Request
}.

Definition IO (A : Type) : Type := State -> result A * State.

#[global] Instance IO_ret : MRet IO := fun _ a st => (Ok a, st).
#[global] Instance IO_bind : MBind IO := fun _ _ f m st =>
  match m st with
  | (Ok a, st') => f a st'
  | (Raise e, st') => (Raise e, st')
  end.

Definition lift {A} (r : result A) : IO A := fun st => (r, st).
Definition gets {A} (f : APIClient -> A) : IO A := fun st => (Ok (f (self st)), st).

(** [str.rstrip("/")] *)
Fixpoint rstrip_slash (s : string) : string :=
  match s with
  | EmptyString => EmptyString
  | String c s' =>
      match rstrip_slash s' with
      | EmptyString => if Ascii.eqb c "/"%char then EmptyString else String c EmptyString
      | r => String c r
      end
  end.

Definition default_headers : list (string * string) :=
  [("Accept", "application/json"); ("User-Agent", "Python/APIClient")].

(** [APIClient.__init__]: nothing is sent. *)
Definition __init__ (api_url token : string) : APIClient :=
  {| api_url := rstrip_slash api_url;
     token := token;
     client := {| timeout := 30; headers := default_headers; is_closed := false |} |}.

Definition fresh (api_url token : string) : State :=
  {| self := __init__ api_url token; sent := [] |}.

(** [AsyncClient.aclose] *)
Definition aclose : IO unit := fun st =>
  let c := client (self st) in
  (Ok tt,
   {| self := {| api_url := api_url (self st);
                 token := token (self st);
                 client := {| timeout := timeout c; headers := headers c;
                              is_closed := true |} |};
      sent := sent st |}).

Definition close : IO unit := aclose.

Definition __aenter__ : IO unit := mret tt.

Definition __aexit__ : IO unit := close.

(** [async with client: body]: the exit runs on every path, and as it
    returns nothing an exception of the body goes on to the caller. *)
Definition async_with {A} (body : IO A) : IO A := fun st =>
  let '(_, st1) := __aenter__ st in
  let '(r, st2) := body st1 in
  match __aexit__ st2 with
  | (Ok _, st3) => (r, st3)
  | (Raise e, st3) => (Raise e, st3)
  end.

Section Client.
(** The server and the network, as a function of the requests already
    sent and the one arriving. *)
Variable server : list Request -> Request -> Reply.

(** [AsyncClient.get(url, params=params)]: a closed client raises
    [RuntimeError] and sends nothing. *)
Definition get (url : string) (params : gmap string value) : IO Response :=
  fun st =>
    let c := client (self st) in
    if is_closed c then (Raise RuntimeError, st)
    else
      let req := {| req_url := url; req_params := params;
                    req_timeout := timeout c; req_headers := headers c |} in
      let st' := {| self := self st; sent := sent st ++ [req] |} in
      match server (sent st) req with
      | Answer r => (Ok r, st')
      | Failure msg => (Raise (TransportError msg), st')
      end.

(** [params["token"] = self.token] updates the caller's dict in place; the
    operations below pass a dict of their own ([get_pipe_data] the fresh
    dict of its keywords), so the update is seen by the request only. *)
Definition _get (endpoint : string) (params : option (gmap string value)) : IO value :=
  let params := match params with Some p => p | None => ∅ end in
  tok ← gets token;
  let params := <["token" := VStr tok]> params in
  base ← gets api_url;
  let url := base +:+ "/" +:+ endpoint in
  response ← get url params;
  _ ← lift (raise_for_status response);
  lift (decode response).

Definition list_data_sources : IO (list DataSource.t) :=
  let params := {["attrs" := VStr "id,name,description,columns"]} in
  response ← _get "v0/datasources" (Some params);
  lift (dss ← getitem response "datasources";
        l ← iter dss;
        comprehension DataSource.from_dict l).

Definition get_data_source (datasource_id : string) : IO value :=
  let params := <["debug" := VStr "columns"]>
                  {["include_workspace_names" := VStr "true"]} in
  _get ("v0/datasources/" +:+ datasource_id) (Some params).

Definition list_pipes : IO (list Pipe.t) :=
  let params := {["attrs" := VStr "id,name,description,type,endpoint"]} in
  response ← _get "v0/pipes" (Some params);
  lift (ps ← getitem response "pipes";
        l ← iter ps;
        comprehension Pipe.from_dict l).

Definition get_pipe (pipe_name : string) : IO value :=
  _get ("v0/pipes/" +:+ pipe_name) None.

Definition get_pipe_data (pipe_name : string) (params : gmap string value) : IO PipeData.t :=
  response ← _get ("v0/pipes/" +:+ pipe_name +:+ ".json") (Some params);
  lift (PipeData.from_dict response).

Definition run_select_query (query : string) : IO value :=
  let params := {["q" := VStr (query +:+ " FORMAT JSON")]} in
  _get "v0/sql" (Some params).

(** The six public operations, and what each returns. *)
Inductive operation : Type :=
| ListDataSources
| GetDataSource (datasource_id : string)
| ListPipes
| GetPipe (pipe_name : string)
| GetPipeData (pipe_name : string) (params : gmap string value)
| RunSelectQuery (query : string).

Inductive returned : Type :=
| DataSources (l : list DataSource.t)
| Pipes (l : list Pipe.t)
| Rows (d : PipeData.t)
| Json (v : value).

Definition run (o : operation) : IO returned :=
  match o with
  | ListDataSources => l ← list_data_sources; mret (DataSources l)
  | GetDataSource i => v ← get_data_source i; mret (Json v)
  | ListPipes => l ← list_pipes; mret (Pipes l)
  | GetPipe n => v ← get_pipe n; mret (Json v)
  | GetPipeData n kw => d ← get_pipe_data n kw; mret (Rows d)
  | RunSelectQuery q => v ← run_select_query q; mret (Json v)
  end.

(** A caller's step: an operation, or [close]. *)
Inductive call : Type :=
| Invoke (o : operation)
| Close.

Definition step (c : call) (st : State) : State :=
  match c with
  | Invoke o => snd (run o st)
  | Close => snd (close st)
  end.

Definition session (cs : list call) (st : State) : State :=
  fold_left (fun st c => step c st) cs st.
End Client.

(** ** What the operations have in common

    Every operation is one call of [_get] followed by a pure step on the
    decoded body. The three functions below name the endpoint, the
    parameters and that step; [run_factor] shows that [run] is made of
    them. *)

Definition endpoint_of (o : operation) : string :=
  match o with
  | ListDataSources => "v0/datasources"
  | GetDataSource i => "v0/datasources/" +:+ i
  | ListPipes => "v0/pipes"
  | GetPipe n => "v0/pipes/" +:+ n
  | GetPipeData n _ => "v0/pipes/" +:+ n +:+ ".json"
  | RunSelectQuery _ => "v0/sql"
  end.

Definition params_of (o : operation) : option (gmap string value) :=
  match o with
  | ListDataSources => Some {["attrs" := VStr "id,name,description,columns"]}
  | GetDataSource _ =>
      Some (<["debug" := VStr "columns"]> {["include_workspace_names" := VStr "true"]})
  | ListPipes => Some {["attrs" := VStr "id,name,description,type,endpoint"]}
  | GetPipe _ => None
  | GetPipeData _ kw => Some kw
  | RunSelectQuery q => Some {["q" := VStr (q +:+ " FORMAT JSON")]}
  end.

Definition parse (o : operation) (body : value) : result returned :=
  match o with
  | ListDataSources =>
      dss ← getitem body "datasources";
      l ← iter dss;
      r ← comprehension DataSource.from_dict l;
      Ok (DataSources r)
  | ListPipes =>
      ps ← getitem body "pipes";
      l ← iter ps;
      r ← comprehension Pipe.from_dict l;
      Ok (Pipes r)
  | GetPipeData _ _ => d ← PipeData.from_dict body; Ok (Rows d)
  | GetDataSource _ | GetPipe _ | RunSelectQuery _ => Ok (Json body)
  end.

(** The request [_get] hands to the connection pool. *)
Definition request_of (c : APIClient) (endpoint : string)
    (params : option (gmap string value)) : Request :=
  {| req_url := api_url c +:+ "/" +:+ endpoint;
     req_params := <["token" := VStr (token c)]> (default ∅ params);
     req_timeout := timeout (client c);
     req_headers := headers (client c) |}.

Definition after (req : Request) (st : State) : State :=
  {| self := self st; sent := sent st ++ [req] |}.

Definition closed (st : State) : State := snd (close st).

Definition is_open (st : State) : Prop := is_closed (client (self st)) = false.

(** The status is not one of 200..299. *)
Definition non_success (r : Response) : Prop :=
  ~ (200 <= status_code r <= 299).

(** The state of a session begun with [fresh api_url0 token0]: the client
    as constructed, and every request sent with its timeout and headers. *)
Definition configured (api_url0 token0 : string) (st : State) : Prop :=
  api_url (self st) = rstrip_slash api_url0 /\
  token (self st) = token0 /\
  timeout (client (self st)) = 30 /\
  headers (client (self st)) = default_headers /\
  Forall (fun req => req_timeout req = 30 /\ req_headers req = default_headers)
    (sent st).

(** ** Shapes of JSON objects *)

(** An object with exactly the given keys. *)
Definition exactly (fields : list string) (v : value) : bool :=
  match v with
  | VDict m => bool_decide (dom m = (list_to_set fields : gset string))
  | _ => false
  end.

(** A well-formed entry of the [datasources] array: an object with the seven
    keys [from_dict] reads, whose engine is an object of the four [Engine]
    fields and whose columns are a list of objects of the seven [Column]
    fields. *)
Definition well_formed_data_source (v : value) : bool :=
  match v with
  | VDict m =>
      forallb (fun f => bool_decide (is_Some (m !! f))) DataSource.fields
      && match m !! "engine" with
         | Some e => exactly Engine.fields e
         | None => false
         end
      && match m !! "columns" with
         | Some (VList cl) => forallb (exactly Column.fields) cl
         | _ => false
         end
  | _ => false
  end.

Definition column_of (v : value) (c : Column.t) : Prop :=
  exists m, v = VDict m /\
    m !! "name" = Some (Column.name c) /\
    m !! "type" = Some (Column.type c) /\
    m !! "codec" = Some (Column.codec c) /\
    m !! "default_value" = Some (Column.default_value c) /\
    m !! "jsonpath" = Some (Column.jsonpath c) /\
    m !! "nullable" = Some (Column.nullable c) /\
    m !! "normalized_name" = Some (Column.normalized_name c).

Definition engine_of (v : value) (e : Engine.t) : Prop :=
  exists m, v = VDict m /\
    m !! "engine" = Some (Engine.engine e) /\
    m !! "engine_sorting_key" = Some (Engine.engine_sorting_key e) /\
    m !! "engine_partition_key" = Some (Engine.engine_partition_key e) /\
    m !! "engine_primary_key" = Some (Engine.engine_primary_key e).

(** The record has the fields of the JSON object, one for one. *)
Definition data_source_of (v : value) (d : DataSource.t) : Prop :=
  exists m ev cl, v = VDict m /\
    m !! "id" = Some (DataSource.id d) /\
    m !! "name" = Some (DataSource.name d) /\
    m !! "engine" = Some ev /\ engine_of ev (DataSource.engine d) /\
    m !! "columns" = Some (VList cl) /\
    Forall2 column_of cl (DataSource.columns d) /\
    m !! "indexes" = Some (DataSource.indexes d) /\
    m !! "new_columns_detected" = Some (DataSource.new_columns_detected d) /\
    m !! "quarantine_rows" = Some (DataSource.quarantine_rows d).

Definition pipe_of (v : value) (p : Pipe.t) : Prop :=
  exists m, v = VDict m /\
    m !! "type" = Some (Pipe.type p) /\
    m !! "id" = Some (Pipe.id p) /\
    m !! "name" = Some (Pipe.name p) /\
    m !! "description" = Some (Pipe.description p) /\
    m !! "endpoint" = Some (Pipe.endpoint p) /\
    m !! "url" = Some (Pipe.url p).

Definition pipe_data_of (v : value) (d : PipeData.t) : Prop :=
  exists m, v = VDict m /\
    m !! "meta" = Some (PipeData.meta d) /\
    m !! "data" = Some (PipeData.data d) /\
    m !! "rows" = Some (PipeData.rows d) /\
    m !! "statistics" = Some (PipeData.statistics d).

(** ** A recording fixture server *)

Module Fixture.
Definition reply (code : Z) (body : option value) : Response :=
  {| status_code := code; text := "body"; json := body |}.

(** Answers every request with the same response. *)
Definition always (r : Response) : list Request -> Request -> Reply :=
  fun _ _ => Answer r.

Definition st0 : State := fresh "https://api.example.test/" "T".

Definition obj (l : list (string * value)) : value := VDict (list_to_map l).

Definition engine : value :=
  obj [("engine", VStr "MergeTree"); ("engine_sorting_key", VStr "id");
       ("engine_partition_key", VStr ""); ("engine_primary_key", VNone)].

Definition column (n : string) : value :=
  obj [("name", VStr n); ("type", VStr "String"); ("codec", VNone);
       ("default_value", VNone); ("jsonpath", VNone);
       ("nullable", VBool false); ("normalized_name", VStr n)].

Definition data_source_kw (i : string) : gmap string value :=
  list_to_map
    [("id", VStr i); ("name", VStr "events"); ("engine", engine);
     ("columns", VList [column "a"; column "b"]); ("indexes", VList []);
     ("new_columns_detected", obj []); ("quarantine_rows", VInt 0)].

Definition data_source (i : string) : value := VDict (data_source_kw i).

Definition pipe_kw (i : string) : gmap string value :=
  list_to_map
    [("type", VStr "endpoint"); ("id", VStr i); ("name", VStr "top");
     ("description", VNone); ("endpoint", VNone); ("url", VStr "u")].

Definition pipe (i : string) : value := VDict (pipe_kw i).

Definition pipe_data : value :=
  obj [("meta", VList []); ("data", VList []); ("rows", VInt 0);
       ("statistics", obj [])].
End Fixture.

(** ** Vocabulary for the properties of construction and of sessions *)

(** [n] slashes in a row. *)
Fixpoint slashes (n : nat) : string :=
  match n with
  | O => EmptyString
  | S n' => String "/"%char (slashes n')
  end.

(** [s.endswith("/")] *)
Fixpoint ends_with_slash (s : string) : bool :=
  match s with
  | EmptyString => false
  | String c EmptyString => Ascii.eqb c "/"%char
  | String _ s' => ends_with_slash s'
  end.

(** The operations a caller invokes before the first [close]. *)
Fixpoint invoked_before_close (cs : list call) : list operation :=
  match cs with
  | [] => []
  | Close :: _ => []
  | Invoke o :: cs' => o :: invoked_before_close cs'
  end.

(** Null, booleans and numbers: the values [for] cannot run over. *)
Definition not_iterable (v : value) : Prop :=
  match v with
  | VNone | VBool _ | VInt _ | VFloat _ => True
  | _ => False
  end.

Definition not_an_object (v : value) : Prop :=
  match v with
  | VDict _ => False
  | _ => True
  end.

(** * Properties *)

(** ** The monad and [_get] *)

Lemma bind_lift {A B} (m : IO A) (f : A -> result B) (st : State) :
  (m ≫= fun x => lift (f x)) st = (fst (m st) ≫= f, snd (m st)).
Proof.
  unfold mbind at 1, IO_bind.
  destruct (m st) as [[a|e] st']; reflexivity.
Qed.

Section Get.
Variable server : list Request -> Request -> Reply.

Lemma get_closed url params st :
  is_closed (client (self st)) = true ->
  get server url params st = (Raise RuntimeError, st).
Proof. intros H. unfold get. rewrite H. reflexivity. Qed.

Lemma _get_closed endpoint params st :
  is_closed (client (self st)) = true ->
  _get server endpoint params st = (Raise RuntimeError, st).
Proof.
  intros H. unfold _get, gets, mbind, IO_bind.
  rewrite get_closed by exact H. reflexivity.
Qed.

(** An open client sends exactly the request [request_of] describes and
    then acts on the reply. *)
Lemma _get_open endpoint params st :
  is_open st ->
  _get server endpoint params st =
    (match server (sent st) (request_of (self st) endpoint params) with
     | Answer r => _ ← raise_for_status r; decode r
     | Failure msg => Raise (TransportError msg)
     end,
     after (request_of (self st) endpoint params) st).
Proof.
  intros H. unfold is_open in H.
  unfold _get, gets, get, mbind at 1 2 3, IO_bind. simpl.
  rewrite H. unfold request_of, after.
  destruct params as [p|]; simpl;
    (destruct (server _ _) as [r|msg]; [|reflexivity]);
    unfold mbind, IO_bind, lift; simpl;
    destruct (raise_for_status r); reflexivity.
Qed.

Lemma run_factor o st :
  run server o st =
    (fst (_get server (endpoint_of o) (params_of o) st) ≫= parse o,
     snd (_get server (endpoint_of o) (params_of o) st)).
Proof.
  destruct o; simpl;
    unfold list_data_sources, get_data_source, list_pipes, get_pipe,
      get_pipe_data, run_select_query;
    unfold mbind at 1 2, IO_bind;
    destruct (_get _ _ _ _) as [[v|e] st']; simpl; try reflexivity;
    unfold lift, mbind, result_bind, mret, IO_ret;
    repeat case_match; simplify_eq; reflexivity.
Qed.

Lemma run_closed o st :
  is_closed (client (self st)) = true ->
  run server o st = (Raise RuntimeError, st).
Proof. intros H. rewrite run_factor, _get_closed by exact H. reflexivity. Qed.

Lemma run_open o st :
  is_open st ->
  run server o st =
    (match server (sent st) (request_of (self st) (endpoint_of o) (params_of o)) with
     | Answer r => _ ← raise_for_status r; body ← decode r; parse o body
     | Failure msg => Raise (TransportError msg)
     end,
     after (request_of (self st) (endpoint_of o) (params_of o)) st).
Proof.
  intros H. rewrite run_factor, _get_open by exact H. simpl.
  destruct (server _ _) as [r|msg]; [|reflexivity].
  destruct (raise_for_status r); reflexivity.
Qed.
End Get.

Lemma request_of_token c endpoint params :
  req_params (request_of c endpoint params) !! "token" = Some (VStr (token c)).
Proof. unfold request_of. simpl. apply lookup_insert_eq. Qed.

Lemma non_success_is_success r : non_success r -> is_success r = false.
Proof.
  unfold non_success, is_success. intros H.
  apply andb_false_iff.
  destruct (Z.leb_spec 200 (status_code r)); [|left; reflexivity].
  destruct (Z.leb_spec (status_code r) 299); [|right; reflexivity].
  exfalso. apply H. lia.
Qed.

(** C1: on an open client, [_get] with any parameter mapping, and each of
    the six operations, sends exactly one request, and that request has the
    parameter [token] set to the client's token; a value the caller put
    under [token] (for [get_pipe_data], among its keyword arguments) is not
    the one sent. *)
Theorem token_on_every_request
    (server : list Request -> Request -> Reply) (st : State) :
  is_open st ->
  (forall endpoint params, exists req,
     sent (snd (_get server endpoint params st)) = (sent st ++ [req])%list /\
     req_params req !! "token" = Some (VStr (token (self st)))) /\
  (forall o, exists req,
     sent (snd (run server o st)) = (sent st ++ [req])%list /\
     req_params req !! "token" = Some (VStr (token (self st)))) /\
  (forall pipe_name kw v, kw !! "token" = Some v -> exists req,
     sent (snd (get_pipe_data server pipe_name kw st)) = (sent st ++ [req])%list /\
     req_params req !! "token" = Some (VStr (token (self st)))).
Proof.
  intros Hopen. split; [|split].
  - intros endpoint params. eexists. rewrite _get_open by exact Hopen.
    split; [reflexivity | apply request_of_token].
  - intros o. eexists. rewrite run_open by exact Hopen.
    split; [reflexivity | apply request_of_token].
  - intros pipe_name kw v _. eexists.
    unfold get_pipe_data. rewrite bind_lift, _get_open by exact Hopen.
    split; [reflexivity | apply request_of_token].
Qed.

Lemma token_on_every_request_witness :
  is_open Fixture.st0 /\
  exists req,
    sent (snd (get_pipe_data (Fixture.always (Fixture.reply 200 (Some Fixture.pipe_data)))
                 "p" {["token" := VStr "mine"]} Fixture.st0)) = [req] /\
    req_params req !! "token" = Some (VStr "T").
Proof.
  split; [reflexivity|].
  apply (proj2 (proj2 (token_on_every_request _ Fixture.st0 eq_refl))
           "p" {["token" := VStr "mine"]} (VStr "mine")).
  reflexivity.
Defined.

(** C2: when the server answers with a status outside 200..299, every
    operation on an open client raises [HTTPStatusError] with that status
    and that body, and nothing else; one request was sent, not two. *)
Theorem http_error_propagates
    (server : list Request -> Request -> Reply) (st : State)
    (o : operation) (r : Response) :
  is_open st ->
  (forall req, server (sent st) req = Answer r) ->
  non_success r ->
  exists req,
    run server o st =
      (Raise (HTTPStatusError (status_code r) (text r)), after req st).
Proof.
  intros Hopen Hsrv Hbad. eexists.
  rewrite run_open by exact Hopen. rewrite Hsrv.
  unfold raise_for_status. rewrite non_success_is_success by exact Hbad.
  reflexivity.
Qed.

Lemma http_error_propagates_witness :
  is_open Fixture.st0 /\
  non_success (Fixture.reply 404 None) /\
  exists req,
    run (Fixture.always (Fixture.reply 404 None)) ListPipes Fixture.st0 =
      (Raise (HTTPStatusError 404 "body"), after req Fixture.st0).
Proof.
  split; [reflexivity|]. split; [unfold non_success; simpl; lia|].
  apply (http_error_propagates (Fixture.always (Fixture.reply 404 None))
           Fixture.st0 ListPipes (Fixture.reply 404 None)).
  - reflexivity.
  - intros req. reflexivity.
  - unfold non_success. simpl. lia.
Defined.

(** ** Building records *)

Lemma field_missing kw f : kw !! f = None -> field kw f = Raise TypeError.
Proof. intros H. unfold field. rewrite H. reflexivity. Qed.

Lemma field_present kw f v : kw !! f = Some v -> field kw f = Ok v.
Proof. intros H. unfold field. rewrite H. reflexivity. Qed.

Lemma no_unexpected_extra fields kw k :
  ~ In k fields -> is_Some (kw !! k) -> no_unexpected fields kw = false.
Proof.
  intros Hk Hsome. unfold no_unexpected. apply bool_decide_eq_false.
  intros Hsub. apply Hk. apply list_elem_of_In.
  apply (elem_of_list_to_set (C:=gset string)), Hsub, elem_of_dom, Hsome.
Qed.

Lemma no_unexpected_exact fields kw :
  dom kw = (list_to_set fields : gset string) -> no_unexpected fields kw = true.
Proof.
  intros H. unfold no_unexpected. apply bool_decide_eq_true. rewrite H. done.
Qed.

Lemma exact_lookup fields (kw : gmap string value) f :
  dom kw = (list_to_set fields : gset string) -> In f fields ->
  exists v, kw !! f = Some v.
Proof.
  intros H Hf. apply (elem_of_dom (D:=gset string)). rewrite H.
  apply elem_of_list_to_set, list_elem_of_In, Hf.
Qed.

Ltac one_of_fields H :=
  repeat (destruct H as [<-|H]); [..|destruct H].

Ltac raises H :=
  unfold mbind, result_bind, field, getitem; rewrite ?H;
  repeat case_match; simplify_eq; first [exact I | reflexivity].

Lemma Column_init_missing kw f :
  In f Column.fields -> kw !! f = None -> Column.init kw = Raise TypeError.
Proof.
  intros Hf H. unfold Column.init.
  destruct (no_unexpected _ _); [|reflexivity].
  unfold Column.fields in Hf. one_of_fields Hf; raises H.
Qed.

Lemma Engine_init_missing kw f :
  In f Engine.fields -> kw !! f = None -> Engine.init kw = Raise TypeError.
Proof.
  intros Hf H. unfold Engine.init.
  destruct (no_unexpected _ _); [|reflexivity].
  unfold Engine.fields in Hf. one_of_fields Hf; raises H.
Qed.

Lemma Pipe_init_missing kw f :
  In f Pipe.fields -> kw !! f = None -> Pipe.init kw = Raise TypeError.
Proof.
  intros Hf H. unfold Pipe.init.
  destruct (no_unexpected _ _); [|reflexivity].
  unfold Pipe.fields in Hf. one_of_fields Hf; raises H.
Qed.

Lemma PipeData_init_missing kw f :
  In f PipeData.fields -> kw !! f = None -> PipeData.init kw = Raise TypeError.
Proof.
  intros Hf H. unfold PipeData.init.
  destruct (no_unexpected _ _); [|reflexivity].
  unfold PipeData.fields in Hf. one_of_fields Hf; raises H.
Qed.

Lemma DataSource_from_dict_missing m f :
  In f DataSource.fields -> m !! f = None ->
  is_Raise (DataSource.from_dict (VDict m)).
Proof.
  intros Hf H. unfold DataSource.from_dict.
  unfold DataSource.fields in Hf. one_of_fields Hf; raises H.
Qed.

Lemma Column_init_extra kw k :
  ~ In k Column.fields -> is_Some (kw !! k) -> Column.init kw = Raise TypeError.
Proof.
  intros Hk H. unfold Column.init.
  rewrite (no_unexpected_extra _ _ _ Hk H). reflexivity.
Qed.

Lemma Engine_init_extra kw k :
  ~ In k Engine.fields -> is_Some (kw !! k) -> Engine.init kw = Raise TypeError.
Proof.
  intros Hk H. unfold Engine.init.
  rewrite (no_unexpected_extra _ _ _ Hk H). reflexivity.
Qed.

Lemma Pipe_init_extra kw k :
  ~ In k Pipe.fields -> is_Some (kw !! k) -> Pipe.init kw = Raise TypeError.
Proof.
  intros Hk H. unfold Pipe.init.
  rewrite (no_unexpected_extra _ _ _ Hk H). reflexivity.
Qed.

Lemma PipeData_init_extra kw k :
  ~ In k PipeData.fields -> is_Some (kw !! k) -> PipeData.init kw = Raise TypeError.
Proof.
  intros Hk H. unfold PipeData.init.
  rewrite (no_unexpected_extra _ _ _ Hk H). reflexivity.
Qed.

Lemma comprehension_raises {A B} (f : A -> result B) (l : list A) (x : A) :
  In x l -> is_Raise (f x) -> is_Raise (comprehension f l).
Proof.
  intros Hx Hr. induction l as [|y l IH]; [destruct Hx|].
  simpl. destruct Hx as [->|Hx].
  - destruct (f x); [destruct Hr | exact I].
  - destruct (f y); [|exact I]. simpl.
    specialize (IH Hx). destruct (comprehension f l); [destruct IH | exact I].
Qed.

(** An extra key at the top of a data source object changes nothing. *)
Lemma DataSource_from_dict_extra m k v :
  ~ In k DataSource.fields ->
  DataSource.from_dict (VDict (<[k:=v]> m)) = DataSource.from_dict (VDict m).
Proof.
  intros Hk.
  assert (Hne : forall f, In f DataSource.fields -> <[k:=v]> m !! f = m !! f).
  { intros f Hf. apply lookup_insert_ne. intros ->. exact (Hk Hf). }
  unfold DataSource.from_dict, getitem.
  rewrite !Hne by (unfold DataSource.fields; simpl; tauto).
  reflexivity.
Qed.

Lemma DataSource_engine_extra m em k :
  m !! "engine" = Some (VDict em) ->
  ~ In k Engine.fields -> is_Some (em !! k) ->
  DataSource.from_dict (VDict m) = Raise TypeError.
Proof.
  intros He Hk H. unfold DataSource.from_dict, getitem. rewrite He. simpl.
  rewrite (Engine_init_extra _ _ Hk H). reflexivity.
Qed.

Lemma DataSource_engine_missing m em f :
  m !! "engine" = Some (VDict em) ->
  In f Engine.fields -> em !! f = None ->
  DataSource.from_dict (VDict m) = Raise TypeError.
Proof.
  intros He Hf H. unfold DataSource.from_dict, getitem. rewrite He. simpl.
  rewrite (Engine_init_missing em f Hf H). reflexivity.
Qed.

Lemma DataSource_column_fails m cl cm k :
  m !! "columns" = Some (VList cl) -> In (VDict cm) cl ->
  (~ In k Column.fields /\ is_Some (cm !! k)) \/
  (In k Column.fields /\ cm !! k = None) ->
  is_Raise (DataSource.from_dict (VDict m)).
Proof.
  intros Hc Hin Hk. unfold DataSource.from_dict, getitem. rewrite Hc.
  assert (Hr : is_Raise
            (comprehension (fun col => ckw ← kwargs col; Column.init ckw) cl)).
  { apply (comprehension_raises _ _ (VDict cm) Hin). simpl.
    destruct Hk as [[Hk H]|[Hk H]].
    - rewrite (Column_init_extra _ _ Hk H). exact I.
    - rewrite (Column_init_missing _ _ Hk H). exact I. }
  unfold mbind, result_bind in *. simpl.
  destruct (comprehension _ cl); [destruct Hr|].
  repeat case_match; exact I.
Qed.

(** C3, as the code has it: for each of the five record types construction
    raises when a required field is absent, at the top or in the nested
    engine and columns. A key that is not a field is ignored only at the top
    of a data source object; for [Pipe], [PipeData], [Engine] and [Column],
    which take the whole object as keywords, such a key makes construction
    raise [TypeError], also inside a data source. *)
Theorem record_construction :
  (forall kw f, In f Column.fields -> kw !! f = None ->
     Column.init kw = Raise TypeError) /\
  (forall kw f, In f Engine.fields -> kw !! f = None ->
     Engine.init kw = Raise TypeError) /\
  (forall m f, In f Pipe.fields -> m !! f = None ->
     Pipe.from_dict (VDict m) = Raise TypeError) /\
  (forall m f, In f PipeData.fields -> m !! f = None ->
     PipeData.from_dict (VDict m) = Raise TypeError) /\
  (forall m f, In f DataSource.fields -> m !! f = None ->
     is_Raise (DataSource.from_dict (VDict m))) /\
  (forall m em f, m !! "engine" = Some (VDict em) ->
     In f Engine.fields -> em !! f = None ->
     DataSource.from_dict (VDict m) = Raise TypeError) /\
  (forall m cl cm f, m !! "columns" = Some (VList cl) -> In (VDict cm) cl ->
     In f Column.fields -> cm !! f = None ->
     is_Raise (DataSource.from_dict (VDict m))) /\
  (forall m k v, ~ In k DataSource.fields ->
     DataSource.from_dict (VDict (<[k:=v]> m)) = DataSource.from_dict (VDict m)) /\
  (forall kw k, ~ In k Column.fields -> is_Some (kw !! k) ->
     Column.init kw = Raise TypeError) /\
  (forall kw k, ~ In k Engine.fields -> is_Some (kw !! k) ->
     Engine.init kw = Raise TypeError) /\
  (forall m k, ~ In k Pipe.fields -> is_Some (m !! k) ->
     Pipe.from_dict (VDict m) = Raise TypeError) /\
  (forall m k, ~ In k PipeData.fields -> is_Some (m !! k) ->
     PipeData.from_dict (VDict m) = Raise TypeError) /\
  (forall m em k, m !! "engine" = Some (VDict em) ->
     ~ In k Engine.fields -> is_Some (em !! k) ->
     DataSource.from_dict (VDict m) = Raise TypeError) /\
  (forall m cl cm k, m !! "columns" = Some (VList cl) -> In (VDict cm) cl ->
     ~ In k Column.fields -> is_Some (cm !! k) ->
     is_Raise (DataSource.from_dict (VDict m))).
Proof.
  repeat split.
  - exact Column_init_missing.
  - exact Engine_init_missing.
  - intros m f. exact (Pipe_init_missing m f).
  - intros m f. exact (PipeData_init_missing m f).
  - exact DataSource_from_dict_missing.
  - exact DataSource_engine_missing.
  - intros m cl cm f Hc Hin Hf H.
    apply (DataSource_column_fails m cl cm f Hc Hin). right. split; assumption.
  - exact DataSource_from_dict_extra.
  - exact Column_init_extra.
  - exact Engine_init_extra.
  - intros m k. exact (Pipe_init_extra m k).
  - intros m k. exact (PipeData_init_extra m k).
  - exact DataSource_engine_extra.
  - intros m cl cm k Hc Hin Hk H.
    apply (DataSource_column_fails m cl cm k Hc Hin). left. split; assumption.
Qed.

Lemma record_construction_witness :
  ~ In "extra" Pipe.fields /\
  is_Some (<["extra" := VInt 1]> (Fixture.pipe_kw "p1") !! "extra") /\
  Pipe.from_dict (VDict (<["extra" := VInt 1]> (Fixture.pipe_kw "p1"))) =
    Raise TypeError.
Proof.
  assert (Hk : ~ In "extra" Pipe.fields) by (simpl; intuition discriminate).
  assert (Hs : is_Some (<["extra" := VInt 1]> (Fixture.pipe_kw "p1") !! "extra"))
    by (exists (VInt 1); reflexivity).
  split; [exact Hk|]. split; [exact Hs|].
  destruct record_construction as (_ & _ & _ & _ & _ & _ & _ & _ & _ & _ & H & _).
  exact (H _ "extra" Hk Hs).
Defined.

(** Against C3 as worded: a pipe object with its six fields builds a
    [Pipe]; the same object with one more key does not. *)
Lemma pipe_extra_field_not_ignored :
  Pipe.from_dict (Fixture.pipe "p1") =
    Ok (Pipe.mk (VStr "endpoint") (VStr "p1") (VStr "top") VNone VNone (VStr "u")) /\
  Pipe.from_dict (VDict (<["extra" := VInt 1]> (Fixture.pipe_kw "p1"))) =
    Raise TypeError.
Proof. split; vm_compute; reflexivity. Qed.

(** ** Objects with exactly the fields of a record *)

Lemma exactly_dom fields v :
  exactly fields v = true ->
  exists m, v = VDict m /\ dom m = (list_to_set fields : gset string).
Proof.
  destruct v; simpl; try discriminate.
  intros H. apply bool_decide_eq_true in H. eauto.
Qed.

Ltac all_fields Hdom fs :=
  repeat match goal with
  | |- context [field ?kw ?f] =>
      let v := fresh "v" in let Hv := fresh "Hv" in
      destruct (exact_lookup fs kw f Hdom) as [v Hv];
      [simpl; tauto|];
      rewrite (field_present kw f v Hv)
  end.

Lemma Engine_init_exact kw :
  dom kw = (list_to_set Engine.fields : gset string) ->
  exists e, Engine.init kw = Ok e /\ engine_of (VDict kw) e.
Proof.
  intros Hdom. unfold Engine.init. rewrite no_unexpected_exact by exact Hdom.
  all_fields Hdom Engine.fields.
  eexists. split; [reflexivity|]. exists kw. simpl. tauto.
Qed.

Lemma Column_init_exact kw :
  dom kw = (list_to_set Column.fields : gset string) ->
  exists c, Column.init kw = Ok c /\ column_of (VDict kw) c.
Proof.
  intros Hdom. unfold Column.init. rewrite no_unexpected_exact by exact Hdom.
  all_fields Hdom Column.fields.
  eexists. split; [reflexivity|]. exists kw. simpl. tauto.
Qed.

Lemma Pipe_from_dict_exact v :
  exactly Pipe.fields v = true ->
  exists p, Pipe.from_dict v = Ok p /\ pipe_of v p.
Proof.
  intros H. apply exactly_dom in H as (kw & -> & Hdom).
  unfold Pipe.from_dict. simpl. unfold Pipe.init.
  rewrite no_unexpected_exact by exact Hdom.
  all_fields Hdom Pipe.fields.
  eexists. split; [reflexivity|]. exists kw. simpl. tauto.
Qed.

Lemma PipeData_from_dict_exact v :
  exactly PipeData.fields v = true ->
  exists d, PipeData.from_dict v = Ok d /\ pipe_data_of v d.
Proof.
  intros H. apply exactly_dom in H as (kw & -> & Hdom).
  unfold PipeData.from_dict. simpl. unfold PipeData.init.
  rewrite no_unexpected_exact by exact Hdom.
  all_fields Hdom PipeData.fields.
  eexists. split; [reflexivity|]. exists kw. simpl. tauto.
Qed.

(** What a comprehension returns is built element by element, in order. *)
Lemma comprehension_Ok {A B} (f : A -> result B) (l : list A) (ys : list B) :
  comprehension f l = Ok ys <-> Forall2 (fun x y => f x = Ok y) l ys.
Proof.
  revert ys. induction l as [|x l IH]; intros ys; simpl.
  - split.
    + intros [= <-]. constructor.
    + intros H. inversion H. reflexivity.
  - split.
    + destruct (f x) as [y|e] eqn:Hx; simpl; [|discriminate].
      destruct (comprehension f l) as [ys'|e] eqn:Hl; simpl; [|discriminate].
      intros [= <-]. constructor; [exact Hx | apply IH; reflexivity].
    + intros H. inversion H as [|? y ? ys' Hx Hl]; subst.
      rewrite Hx. simpl. apply IH in Hl. rewrite Hl. reflexivity.
Qed.

Lemma comprehension_total {A B} (f : A -> result B) (R : A -> B -> Prop)
    (l : list A) :
  (forall x, In x l -> exists y, f x = Ok y /\ R x y) ->
  exists ys, comprehension f l = Ok ys /\ Forall2 R l ys.
Proof.
  induction l as [|x l IH]; intros H; simpl.
  - exists []. split; [reflexivity | constructor].
  - destruct (H x) as (y & Hx & Hy); [left; reflexivity|].
    destruct IH as (ys & Hl & Hys); [intros z Hz; apply H; right; exact Hz|].
    exists (y :: ys). rewrite Hx, Hl. split; [reflexivity|].
    constructor; assumption.
Qed.


Lemma well_formed_data_source_from_dict v :
  well_formed_data_source v = true ->
  exists d, DataSource.from_dict v = Ok d /\ data_source_of v d.
Proof.
  destruct v as [| | | | | |m]; try (intros H; discriminate H).
  unfold well_formed_data_source.
  intros H. apply andb_true_iff in H as [H Hcols].
  apply andb_true_iff in H as [Hkeys Heng].
  assert (Hget : forall f, In f DataSource.fields -> exists x, m !! f = Some x).
  { intros f Hf. rewrite forallb_forall in Hkeys.
    specialize (Hkeys f Hf). apply bool_decide_eq_true in Hkeys.
    exact Hkeys. }
  destruct (m !! "engine") as [ev|] eqn:He; [|discriminate].
  destruct (m !! "columns") as [[| | | | |cl|]|] eqn:Hc; try discriminate.
  apply exactly_dom in Heng as (em & -> & Hem).
  destruct (Engine_init_exact em Hem) as (e & Hinit & Heof).
  destruct (comprehension_total
              (fun col => ckw ← kwargs col; Column.init ckw) column_of cl)
    as (cols & Hcomp & Hall).
  { intros col Hcol. rewrite forallb_forall in Hcols.
    specialize (Hcols col Hcol). apply exactly_dom in Hcols as (cm & -> & Hcm).
    simpl. apply Column_init_exact, Hcm. }
  destruct (Hget "id") as [vi Hi]; [simpl; tauto|].
  destruct (Hget "name") as [vn Hn]; [simpl; tauto|].
  destruct (Hget "indexes") as [vx Hx]; [simpl; tauto|].
  destruct (Hget "new_columns_detected") as [vd Hd]; [simpl; tauto|].
  destruct (Hget "quarantine_rows") as [vq Hq]; [simpl; tauto|].
  unfold DataSource.from_dict, getitem.
  rewrite He, Hc, Hi, Hn, Hx, Hd, Hq. simpl.
  rewrite Hinit. simpl. rewrite Hcomp. simpl.
  eexists. split; [reflexivity|].
  exists m, (VDict em), cl. simpl. tauto.
Qed.

(** ** The operations, one by one *)

(** C4: [run_select_query] on an open client sends one GET to
    [{api_url}/v0/sql] whose [q] is the query followed by [" FORMAT JSON"],
    nothing else done to it, and on a success answer with a JSON body
    returns that body. *)
Theorem run_select_query_sends_query
    (server : list Request -> Request -> Reply) (st : State) (query : string) :
  is_open st ->
  let req :=
    {| req_url := api_url (self st) +:+ "/v0/sql";
       req_params := <["token" := VStr (token (self st))]>
                       {["q" := VStr (query +:+ " FORMAT JSON")]};
       req_timeout := timeout (client (self st));
       req_headers := headers (client (self st)) |} in
  req_params req !! "q" = Some (VStr (query +:+ " FORMAT JSON")) /\
  snd (run_select_query server query st) = after req st /\
  forall r v,
    server (sent st) req = Answer r -> is_success r = true -> json r = Some v ->
    fst (run_select_query server query st) = Ok v.
Proof.
  intros Hopen req. split; [reflexivity|].
  unfold run_select_query. rewrite _get_open by exact Hopen.
  split; [reflexivity|].
  intros r v Hr Hs Hj. simpl.
  change (request_of (self st) "v0/sql"
            (Some {["q" := VStr (query +:+ " FORMAT JSON")]})) with req.
  rewrite Hr. unfold raise_for_status, decode. rewrite Hs, Hj. reflexivity.
Qed.

Lemma run_select_query_sends_query_witness :
  is_open Fixture.st0 /\
  fst (run_select_query (Fixture.always (Fixture.reply 200 (Some (VInt 1))))
         "SELECT 1" Fixture.st0) = Ok (VInt 1).
Proof.
  split; [reflexivity|].
  apply (proj2 (proj2 (run_select_query_sends_query
                         (Fixture.always (Fixture.reply 200 (Some (VInt 1))))
                         Fixture.st0 "SELECT 1" eq_refl))
           (Fixture.reply 200 (Some (VInt 1))) (VInt 1));
    reflexivity.
Defined.

(** C5: [list_data_sources] on an open client sends one GET to
    [{api_url}/v0/datasources] with [attrs=id,name,description,columns];
    when the answer is a success whose body has a [datasources] array of
    well-formed entries, it returns as many records as there are entries,
    in the order of the array, each with the fields of its entry. *)
Theorem list_data_sources_in_order
    (server : list Request -> Request -> Reply) (st : State) :
  is_open st ->
  let req :=
    {| req_url := api_url (self st) +:+ "/v0/datasources";
       req_params := <["token" := VStr (token (self st))]>
                       {["attrs" := VStr "id,name,description,columns"]};
       req_timeout := timeout (client (self st));
       req_headers := headers (client (self st)) |} in
  req_params req !! "attrs" = Some (VStr "id,name,description,columns") /\
  snd (list_data_sources server st) = after req st /\
  forall r m l,
    server (sent st) req = Answer r -> is_success r = true ->
    json r = Some (VDict m) -> m !! "datasources" = Some (VList l) ->
    Forall (fun e => well_formed_data_source e = true) l ->
    exists ds,
      fst (list_data_sources server st) = Ok ds /\
      length ds = length l /\
      Forall2 data_source_of l ds.
Proof.
  intros Hopen req. split; [reflexivity|].
  unfold list_data_sources. rewrite bind_lift, _get_open by exact Hopen.
  split; [reflexivity|].
  intros r m l Hr Hs Hj Hm Hwf. simpl.
  change (request_of (self st) "v0/datasources"
            (Some {["attrs" := VStr "id,name,description,columns"]})) with req.
  rewrite Hr. unfold raise_for_status, decode. rewrite Hs, Hj. simpl.
  rewrite Hm. simpl.
  destruct (comprehension_total DataSource.from_dict data_source_of l)
    as (ds & Hds & Hall).
  { intros e He. apply well_formed_data_source_from_dict.
    rewrite Forall_forall in Hwf. apply Hwf, list_elem_of_In, He. }
  exists ds. rewrite (Forall2_length _ _ _ Hall).
  split; [exact Hds|]. split; [reflexivity | exact Hall].
Qed.

Lemma list_data_sources_in_order_witness :
  is_open Fixture.st0 /\
  exists ds,
    fst (list_data_sources
           (Fixture.always
              (Fixture.reply 200
                 (Some (Fixture.obj
                    [("datasources",
                      VList [Fixture.data_source "d1"; Fixture.data_source "d2"])]))))
           Fixture.st0) = Ok ds /\
    length ds = 2%nat /\
    Forall2 data_source_of
      [Fixture.data_source "d1"; Fixture.data_source "d2"] ds.
Proof.
  split; [reflexivity|].
  refine (proj2 (proj2 (list_data_sources_in_order _ Fixture.st0 eq_refl))
            (Fixture.reply 200 _)
            (list_to_map
               [("datasources",
                 VList [Fixture.data_source "d1"; Fixture.data_source "d2"])])
            [Fixture.data_source "d1"; Fixture.data_source "d2"]
            eq_refl eq_refl eq_refl _ _).
  - vm_compute. reflexivity.
  - repeat constructor.
Defined.

(** C6: [get_data_source] on an open client sends, for any identifier, one
    GET to [{api_url}/v0/datasources/{id}] with [debug=columns],
    [include_workspace_names=true] and the token, and on a success answer
    with a JSON body returns that body as it is. *)
Theorem get_data_source_request
    (server : list Request -> Request -> Reply) (st : State)
    (datasource_id : string) :
  is_open st ->
  let req :=
    {| req_url := api_url (self st) +:+ "/v0/datasources/" +:+ datasource_id;
       req_params := <["token" := VStr (token (self st))]>
                       (<["debug" := VStr "columns"]>
                          {["include_workspace_names" := VStr "true"]});
       req_timeout := timeout (client (self st));
       req_headers := headers (client (self st)) |} in
  req_params req !! "debug" = Some (VStr "columns") /\
  req_params req !! "include_workspace_names" = Some (VStr "true") /\
  req_params req !! "token" = Some (VStr (token (self st))) /\
  snd (get_data_source server datasource_id st) = after req st /\
  forall r v,
    server (sent st) req = Answer r -> is_success r = true -> json r = Some v ->
    fst (get_data_source server datasource_id st) = Ok v.
Proof.
  intros Hopen req.
  split; [reflexivity|]. split; [reflexivity|].
  split; [apply lookup_insert_eq|].
  unfold get_data_source. rewrite _get_open by exact Hopen.
  split; [reflexivity|].
  intros r v Hr Hs Hj. simpl.
  change (request_of (self st) ("v0/datasources/" +:+ datasource_id)
            (Some (<["debug" := VStr "columns"]>
                     {["include_workspace_names" := VStr "true"]}))) with req.
  rewrite Hr. unfold raise_for_status, decode. rewrite Hs, Hj. reflexivity.
Qed.

Lemma get_data_source_request_witness :
  is_open Fixture.st0 /\
  fst (get_data_source
         (Fixture.always (Fixture.reply 200 (Some (Fixture.data_source "abc"))))
         "abc" Fixture.st0) = Ok (Fixture.data_source "abc").
Proof.
  split; [reflexivity|].
  apply (proj2 (proj2 (proj2 (proj2 (get_data_source_request
           (Fixture.always (Fixture.reply 200 (Some (Fixture.data_source "abc"))))
           Fixture.st0 "abc" eq_refl))))
           (Fixture.reply 200 (Some (Fixture.data_source "abc"))));
    reflexivity.
Defined.

(** C7, as the code has it: [get_pipe_data] on an open client sends one GET
    to [{api_url}/v0/pipes/{pipe_name}.json] whose parameters are the
    caller's keywords with [token] set to the client's token: every
    caller's pair under a key other than [token] is sent as given. On a
    success answer the body goes through [PipeData.from_dict], which gives
    a record of its four fields when the body is an object of exactly
    [meta], [data], [rows] and [statistics], and raises [TypeError] when the
    body has any other key. *)
Theorem get_pipe_data_request
    (server : list Request -> Request -> Reply) (st : State)
    (pipe_name : string) (kw : gmap string value) :
  is_open st ->
  let req :=
    {| req_url := api_url (self st) +:+ "/v0/pipes/" +:+ pipe_name +:+ ".json";
       req_params := <["token" := VStr (token (self st))]> kw;
       req_timeout := timeout (client (self st));
       req_headers := headers (client (self st)) |} in
  snd (get_pipe_data server pipe_name kw st) = after req st /\
  req_params req !! "token" = Some (VStr (token (self st))) /\
  (forall k v, k <> "token" -> kw !! k = Some v -> req_params req !! k = Some v) /\
  forall r body,
    server (sent st) req = Answer r -> is_success r = true ->
    json r = Some body ->
    fst (get_pipe_data server pipe_name kw st) = PipeData.from_dict body /\
    (exactly PipeData.fields body = true ->
     exists d, fst (get_pipe_data server pipe_name kw st) = Ok d /\
               pipe_data_of body d) /\
    (forall m k, body = VDict m -> ~ In k PipeData.fields -> is_Some (m !! k) ->
     fst (get_pipe_data server pipe_name kw st) = Raise TypeError).
Proof.
  intros Hopen req.
  unfold get_pipe_data. rewrite bind_lift, _get_open by exact Hopen.
  split; [reflexivity|]. split; [apply lookup_insert_eq|].
  split.
  { intros k v Hk Hkw. simpl. rewrite lookup_insert_ne by congruence. exact Hkw. }
  intros r body Hr Hs Hj. simpl.
  change (request_of (self st) ("v0/pipes/" +:+ pipe_name +:+ ".json") (Some kw))
    with req.
  rewrite Hr. unfold raise_for_status, decode. rewrite Hs, Hj. simpl.
  split; [reflexivity|]. split.
  - intros Hex. apply PipeData_from_dict_exact, Hex.
  - intros m k -> Hk Hsome. exact (PipeData_init_extra m k Hk Hsome).
Qed.

Lemma get_pipe_data_request_witness :
  is_open Fixture.st0 /\
  exists d,
    fst (get_pipe_data
           (Fixture.always (Fixture.reply 200 (Some Fixture.pipe_data)))
           "p" {["year" := VInt 2024]} Fixture.st0) = Ok d /\
    pipe_data_of Fixture.pipe_data d.
Proof.
  split; [reflexivity|].
  destruct (get_pipe_data_request
              (Fixture.always (Fixture.reply 200 (Some Fixture.pipe_data)))
              Fixture.st0 "p" {["year" := VInt 2024]} eq_refl)
    as (_ & _ & _ & H).
  destruct (H (Fixture.reply 200 (Some Fixture.pipe_data)) Fixture.pipe_data
              eq_refl eq_refl eq_refl) as (_ & Hex & _).
  apply Hex. vm_compute. reflexivity.
Defined.

(** Against C7 as worded: the caller's pair [token=mine] is not among the
    parameters sent, which are [year=2024] and the client's [token=T]; and
    a success body with a fifth key is not parsed into a record. *)
Lemma get_pipe_data_token_kwarg_not_sent :
  ({["token" := VStr "mine"; "year" := VInt 2024]} : gmap string value) !! "token"
    = Some (VStr "mine") /\
  req_params <$>
    sent (snd (get_pipe_data
                 (Fixture.always (Fixture.reply 200 (Some Fixture.pipe_data)))
                 "p" {["token" := VStr "mine"; "year" := VInt 2024]} Fixture.st0))
    = [ {["year" := VInt 2024; "token" := VStr "T"]} ] /\
  fst (get_pipe_data
         (Fixture.always
            (Fixture.reply 200
               (Some (Fixture.obj
                  [("meta", VList []); ("data", VList []); ("rows", VInt 0);
                   ("statistics", Fixture.obj []);
                   ("rows_before_limit_at_least", VInt 0)]))))
         "p" ∅ Fixture.st0) = Raise TypeError.
Proof. repeat split; vm_compute; reflexivity. Qed.



(** ** Lifecycle and configuration *)

Example rstrip_slash_trailing : rstrip_slash "https://api.example.test//" = "https://api.example.test".
Proof. reflexivity. Qed.

Example rstrip_slash_inner : rstrip_slash "/a/b" = "/a/b".
Proof. reflexivity. Qed.

(** Construction sends nothing. *)
Lemma fresh_sends_nothing api_url0 token0 : sent (fresh api_url0 token0) = [].
Proof. reflexivity. Qed.

Lemma closed_is_closed st : is_closed (client (self (closed st))) = true.
Proof. reflexivity. Qed.

Lemma async_with_is_closed {A} (body : IO A) st :
  is_closed (client (self (snd (async_with body st)))) = true.
Proof.
  unfold async_with. simpl. destruct (body st) as [r st2]. reflexivity.
Qed.

Lemma async_with_result {A} (body : IO A) st :
  async_with body st = (fst (body st), closed (snd (body st))).
Proof.
  unfold async_with. simpl. destruct (body st) as [r st2]. reflexivity.
Qed.

(** C9: after [close], and after the end of an [async with] scope whatever
    its body did, each of the six operations raises the closed-client
    [RuntimeError]; nothing is sent and nothing is returned. *)
Theorem operations_after_close
    (server : list Request -> Request -> Reply) (st : State) (o : operation) :
  run server o (closed st) = (Raise RuntimeError, closed st) /\
  sent (closed st) = sent st /\
  forall (A : Type) (body : IO A),
    run server o (snd (async_with body st)) =
      (Raise RuntimeError, snd (async_with body st)).
Proof.
  split; [apply run_closed, closed_is_closed|].
  split; [reflexivity|].
  intros A body. apply run_closed, async_with_is_closed.
Qed.

Lemma run_self server o st : self (snd (run server o st)) = self st.
Proof.
  destruct (is_closed (client (self st))) eqn:H.
  - rewrite run_closed by exact H. reflexivity.
  - rewrite run_open by exact H. reflexivity.
Qed.

(** The requests an operation adds carry the client's timeout and headers. *)
Lemma run_sent server o st :
  exists l,
    sent (snd (run server o st)) = (sent st ++ l)%list /\
    Forall (fun req => req_timeout req = timeout (client (self st)) /\
                       req_headers req = headers (client (self st))) l.
Proof.
  destruct (is_closed (client (self st))) eqn:H.
  - exists []. rewrite run_closed by exact H. simpl.
    split; [symmetry; apply app_nil_r | constructor].
  - eexists [_]. rewrite run_open by exact H.
    split; [reflexivity|]. repeat constructor.
Qed.

Lemma step_configured server api_url0 token0 c st :
  configured api_url0 token0 st -> configured api_url0 token0 (step server c st).
Proof.
  intros (Hu & Ht & Hto & Hh & Hs). destruct c as [o|]; simpl.
  - unfold configured. rewrite run_self.
    destruct (run_sent server o st) as (l & -> & Hl).
    repeat split; try assumption.
    apply Forall_app. split; [exact Hs|].
    eapply Forall_impl; [exact Hl|]. simpl.
    intros req [H1 H2]. rewrite H1, H2. split; assumption.
  - repeat split; assumption.
Qed.

Lemma session_configured server api_url0 token0 cs st :
  configured api_url0 token0 st ->
  configured api_url0 token0 (session server cs st).
Proof.
  revert st. induction cs as [|c cs IH]; intros st H; simpl; [exact H|].
  apply IH, step_configured, H.
Qed.

(** C10: a client built by [__init__] has timeout 30 and the two headers;
    no operation changes the client object; and after any sequence of
    operations and closes every request sent carried that timeout and
    those headers, while base URL, token, timeout and headers are still
    those of construction. *)
Theorem configuration_is_fixed
    (server : list Request -> Request -> Reply) (api_url0 token0 : string) :
  timeout (client (__init__ api_url0 token0)) = 30 /\
  headers (client (__init__ api_url0 token0)) =
    [("Accept", "application/json"); ("User-Agent", "Python/APIClient")] /\
  (forall o st, self (snd (run server o st)) = self st) /\
  forall cs : list call,
    api_url (self (session server cs (fresh api_url0 token0))) =
      rstrip_slash api_url0 /\
    token (self (session server cs (fresh api_url0 token0))) = token0 /\
    timeout (client (self (session server cs (fresh api_url0 token0)))) = 30 /\
    headers (client (self (session server cs (fresh api_url0 token0)))) =
      [("Accept", "application/json"); ("User-Agent", "Python/APIClient")] /\
    Forall (fun req =>
              req_timeout req = 30 /\
              req_headers req =
                [("Accept", "application/json"); ("User-Agent", "Python/APIClient")])
      (sent (session server cs (fresh api_url0 token0))).
Proof.
  split; [reflexivity|]. split; [reflexivity|].
  split; [intros o st; apply run_self|].
  intros cs. apply (session_configured server api_url0 token0 cs).
  repeat split. constructor.
Qed.

(** * Further properties *)

(** ** Construction *)

Lemma rstrip_slash_slashes n : rstrip_slash (slashes n) = EmptyString.
Proof. induction n as [|n IH]; simpl; [|rewrite IH]; reflexivity. Qed.

Lemma append_empty (s : string) : EmptyString +:+ s = s.
Proof. reflexivity. Qed.

Lemma append_String c (s t : string) : String c s +:+ t = String c (s +:+ t).
Proof. reflexivity. Qed.

Lemma rstrip_slash_String c s :
  rstrip_slash (String c s) =
    match rstrip_slash s with
    | EmptyString =>
        if Ascii.eqb c "/"%char then EmptyString else String c EmptyString
    | r => String c r
    end.
Proof. reflexivity. Qed.

Lemma rstrip_slash_app_slashes s n :
  rstrip_slash (s +:+ slashes n) = rstrip_slash s.
Proof.
  induction s as [|c s IH].
  - rewrite append_empty. apply rstrip_slash_slashes.
  - rewrite append_String, !rstrip_slash_String, IH. reflexivity.
Qed.

Lemma rstrip_slash_split s : exists n, s = rstrip_slash s +:+ slashes n.
Proof.
  induction s as [|c s [n IH]]; [exists O; reflexivity|].
  rewrite rstrip_slash_String. destruct (rstrip_slash s) as [|a r].
  - rewrite append_empty in IH.
    destruct (Ascii.eqb_spec c "/"%char) as [->|Hc].
    + exists (S n). rewrite append_empty. simpl. f_equal. exact IH.
    + exists n. rewrite append_String, append_empty. f_equal. exact IH.
  - exists n. rewrite append_String. f_equal. exact IH.
Qed.

Lemma rstrip_slash_no_trailing s : ends_with_slash (rstrip_slash s) = false.
Proof.
  induction s as [|c s IH]; [reflexivity|].
  simpl. destruct (rstrip_slash s) as [|a r].
  - destruct (Ascii.eqb c "/"%char) eqn:Hc; simpl; [reflexivity | exact Hc].
  - exact IH.
Qed.

(** X1: the base URL a client keeps never ends with a slash, and it is the
    URL given to [__init__] with nothing but trailing slashes taken off. *)
Theorem base_url_without_trailing_slash (api_url0 token0 : string) :
  ends_with_slash (api_url (__init__ api_url0 token0)) = false /\
  exists n, api_url0 = api_url (__init__ api_url0 token0) +:+ slashes n.
Proof.
  split; [apply rstrip_slash_no_trailing | apply rstrip_slash_split].
Qed.

(** X2: trailing slashes on the URL given to [__init__] make no difference:
    the client built is the same, so are all its requests. *)
Theorem trailing_slashes_make_no_difference (api_url0 token0 : string) (n : nat) :
  __init__ (api_url0 +:+ slashes n) token0 = __init__ api_url0 token0 /\
  forall server cs,
    session server cs (fresh (api_url0 +:+ slashes n) token0) =
    session server cs (fresh api_url0 token0).
Proof.
  assert (H : __init__ (api_url0 +:+ slashes n) token0 = __init__ api_url0 token0).
  { unfold __init__. rewrite rstrip_slash_app_slashes. reflexivity. }
  split; [exact H|].
  intros server cs. unfold fresh. rewrite H. reflexivity.
Qed.

(** ** Requests and replies *)

(** X3: [get_pipe] on an open client sends, for any name, one GET to
    [{api_url}/v0/pipes/{pipe_name}] whose only parameter is the token, and
    on a success answer with a JSON body returns that body as it is. *)
Theorem get_pipe_request
    (server : list Request -> Request -> Reply) (st : State) (pipe_name : string) :
  is_open st ->
  let req :=
    {| req_url := api_url (self st) +:+ "/v0/pipes/" +:+ pipe_name;
       req_params := {["token" := VStr (token (self st))]};
       req_timeout := timeout (client (self st));
       req_headers := headers (client (self st)) |} in
  dom (req_params req) = ({["token"]} : gset string) /\
  snd (get_pipe server pipe_name st) = after req st /\
  forall r v,
    server (sent st) req = Answer r -> is_success r = true -> json r = Some v ->
    fst (get_pipe server pipe_name st) = Ok v.
Proof.
  intros Hopen req. split; [apply dom_singleton_L|].
  unfold get_pipe. rewrite _get_open by exact Hopen.
  split; [reflexivity|].
  intros r v Hr Hs Hj. simpl.
  change (request_of (self st) ("v0/pipes/" +:+ pipe_name) None) with req.
  rewrite Hr. unfold raise_for_status, decode. rewrite Hs, Hj. reflexivity.
Qed.

Lemma get_pipe_request_witness :
  is_open Fixture.st0 /\
  fst (get_pipe (Fixture.always (Fixture.reply 200 (Some (Fixture.pipe "p1"))))
         "p1" Fixture.st0) = Ok (Fixture.pipe "p1").
Proof.
  split; [reflexivity|].
  destruct (get_pipe_request
              (Fixture.always (Fixture.reply 200 (Some (Fixture.pipe "p1"))))
              Fixture.st0 "p1" eq_refl) as (_ & _ & H).
  apply (H (Fixture.reply 200 (Some (Fixture.pipe "p1")))); reflexivity.
Defined.

(** X4: when the request fails in transport (connection, DNS, timeout),
    every operation on an open client raises that transport error; the one
    request is the only one made and the client is left as it was. *)
Theorem transport_failure_propagates
    (server : list Request -> Request -> Reply) (st : State)
    (o : operation) (msg : string) :
  is_open st ->
  (forall req, server (sent st) req = Failure msg) ->
  exists req,
    run server o st = (Raise (TransportError msg), after req st).
Proof.
  intros Hopen Hsrv. eexists.
  rewrite run_open by exact Hopen. rewrite Hsrv. reflexivity.
Qed.

Lemma transport_failure_propagates_witness :
  is_open Fixture.st0 /\
  exists req,
    run (fun _ _ => Failure "timed out") (GetPipe "p1") Fixture.st0 =
      (Raise (TransportError "timed out"), after req Fixture.st0).
Proof.
  split; [reflexivity|].
  apply (transport_failure_propagates (fun _ _ => Failure "timed out")
           Fixture.st0 (GetPipe "p1") "timed out").
  - reflexivity.
  - intros req. reflexivity.
Defined.



Lemma list_data_sources_on_body server st r body :
  is_open st ->
  (forall req, server (sent st) req = Answer r) ->
  is_success r = true -> json r = Some body ->
  fst (list_data_sources server st) =
    (dss ← getitem body "datasources";
     l ← iter dss;
     comprehension DataSource.from_dict l).
Proof.
  intros Hopen Hsrv Hs Hj.
  unfold list_data_sources. rewrite bind_lift, _get_open by exact Hopen.
  rewrite Hsrv. simpl. unfold raise_for_status, decode. rewrite Hs, Hj.
  reflexivity.
Qed.

Lemma list_pipes_on_body server st r body :
  is_open st ->
  (forall req, server (sent st) req = Answer r) ->
  is_success r = true -> json r = Some body ->
  fst (list_pipes server st) =
    (ps ← getitem body "pipes";
     l ← iter ps;
     comprehension Pipe.from_dict l).
Proof.
  intros Hopen Hsrv Hs Hj.
  unfold list_pipes. rewrite bind_lift, _get_open by exact Hopen.
  rewrite Hsrv. simpl. unfold raise_for_status, decode. rewrite Hs, Hj.
  reflexivity.
Qed.

(** X6: on a success answer the two listing operations need their envelope:
    a body that is an object without the key [datasources] (for
    [list_pipes], [pipes]) raises [KeyError] for that key; a body that is
    not an object, or whose entry under the key is null, a boolean or a
    number, raises [TypeError]. *)
Theorem listing_needs_its_envelope
    (server : list Request -> Request -> Reply) (st : State)
    (r : Response) (body : value) :
  is_open st ->
  (forall req, server (sent st) req = Answer r) ->
  is_success r = true -> json r = Some body ->
  (forall m, body = VDict m -> m !! "datasources" = None ->
     fst (list_data_sources server st) = Raise (KeyError "datasources")) /\
  (forall m, body = VDict m -> m !! "pipes" = None ->
     fst (list_pipes server st) = Raise (KeyError "pipes")) /\
  (not_an_object body ->
     fst (list_data_sources server st) = Raise TypeError /\
     fst (list_pipes server st) = Raise TypeError) /\
  (forall m x, body = VDict m -> m !! "datasources" = Some x -> not_iterable x ->
     fst (list_data_sources server st) = Raise TypeError) /\
  (forall m x, body = VDict m -> m !! "pipes" = Some x -> not_iterable x ->
     fst (list_pipes server st) = Raise TypeError).
Proof.
  intros Hopen Hsrv Hs Hj.
  rewrite (list_data_sources_on_body server st r body Hopen Hsrv Hs Hj).
  rewrite (list_pipes_on_body server st r body Hopen Hsrv Hs Hj).
  repeat split.
  - intros m -> H. unfold getitem. rewrite H. reflexivity.
  - intros m -> H. unfold getitem. rewrite H. reflexivity.
  - destruct body; simpl in H; try reflexivity. destruct H.
  - destruct body; simpl in H; try reflexivity. destruct H.
  - intros m x -> H Hx. unfold getitem. rewrite H.
    destruct x; simpl in Hx; try reflexivity; destruct Hx.
  - intros m x -> H Hx. unfold getitem. rewrite H.
    destruct x; simpl in Hx; try reflexivity; destruct Hx.
Qed.

Lemma listing_needs_its_envelope_witness :
  is_open Fixture.st0 /\
  fst (list_pipes
         (Fixture.always (Fixture.reply 200 (Some (Fixture.obj []))))
         Fixture.st0) = Raise (KeyError "pipes").
Proof.
  split; [reflexivity|].
  destruct (listing_needs_its_envelope
              (Fixture.always (Fixture.reply 200 (Some (Fixture.obj []))))
              Fixture.st0 (Fixture.reply 200 (Some (Fixture.obj [])))
              (Fixture.obj [])
              eq_refl (fun _ => eq_refl) eq_refl eq_refl) as (_ & H & _).
  apply (H ∅); reflexivity.
Defined.

Lemma comprehension_first_error {A B} (f : A -> result B)
    (l1 : list A) (x : A) (l2 : list A) (e : exn) :
  Forall (fun y => exists b, f y = Ok b) l1 -> f x = Raise e ->
  comprehension f (l1 ++ x :: l2)%list = Raise e.
Proof.
  intros Hl1 Hx. induction Hl1 as [|y l1 [b Hy] _ IH]; simpl.
  - rewrite Hx. reflexivity.
  - rewrite Hy. simpl. rewrite IH. reflexivity.
Qed.

(** X7: the listing operations return all records or none: when an entry
    of the array does not parse and every entry before it does, the
    operation raises the exception of that entry, whatever follows it. *)
Theorem listing_raises_first_bad_entry
    (server : list Request -> Request -> Reply) (st : State)
    (r : Response) (m : gmap string value)
    (before : list value) (bad : value) (rest : list value) (e : exn) :
  is_open st ->
  (forall req, server (sent st) req = Answer r) ->
  is_success r = true -> json r = Some (VDict m) ->
  (m !! "datasources" = Some (VList (before ++ bad :: rest)) ->
   Forall (fun y => exists d, DataSource.from_dict y = Ok d) before ->
   DataSource.from_dict bad = Raise e ->
   fst (list_data_sources server st) = Raise e) /\
  (m !! "pipes" = Some (VList (before ++ bad :: rest)) ->
   Forall (fun y => exists p, Pipe.from_dict y = Ok p) before ->
   Pipe.from_dict bad = Raise e ->
   fst (list_pipes server st) = Raise e).
Proof.
  intros Hopen Hsrv Hs Hj.
  rewrite (list_data_sources_on_body server st r _ Hopen Hsrv Hs Hj).
  rewrite (list_pipes_on_body server st r _ Hopen Hsrv Hs Hj).
  split; intros Hm Hbefore Hbad; unfold getitem; rewrite Hm; simpl;
    apply comprehension_first_error; assumption.
Qed.

Lemma listing_raises_first_bad_entry_witness :
  is_open Fixture.st0 /\
  fst (list_pipes
         (Fixture.always
            (Fixture.reply 200
               (Some (Fixture.obj
                  [("pipes", VList [Fixture.pipe "p1"; VInt 7; Fixture.pipe "p2"])]))))
         Fixture.st0) = Raise TypeError.
Proof.
  split; [reflexivity|].
  destruct (listing_raises_first_bad_entry
              (Fixture.always
                 (Fixture.reply 200
                    (Some (Fixture.obj
                       [("pipes",
                         VList [Fixture.pipe "p1"; VInt 7; Fixture.pipe "p2"])]))))
              Fixture.st0 (Fixture.reply 200 _)
              (list_to_map
                 [("pipes", VList [Fixture.pipe "p1"; VInt 7; Fixture.pipe "p2"])])
              [Fixture.pipe "p1"] (VInt 7) [Fixture.pipe "p2"] TypeError
              eq_refl (fun _ => eq_refl) eq_refl eq_refl) as [_ H].
  apply H.
  - reflexivity.
  - constructor; [|constructor]. eexists. vm_compute. reflexivity.
  - reflexivity.
Defined.

(** ** Records, again *)

Lemma no_unexpected_dom fields kw :
  no_unexpected fields kw = true ->
  (forall f, In f fields -> is_Some (kw !! f)) ->
  dom kw = (list_to_set fields : gset string).
Proof.
  intros Hsub Hall. unfold no_unexpected in Hsub.
  apply bool_decide_eq_true in Hsub.
  apply (anti_symm (⊆)); [exact Hsub|].
  intros f Hf. apply elem_of_dom, Hall, list_elem_of_In.
  apply (elem_of_list_to_set (C:=gset string)), Hf.
Qed.

Lemma Pipe_init_Ok kw p :
  Pipe.init kw = Ok p ->
  dom kw = (list_to_set Pipe.fields : gset string) /\ pipe_of (VDict kw) p.
Proof.
  unfold Pipe.init. destruct (no_unexpected Pipe.fields kw) eqn:Hn; [|discriminate].
  unfold mbind, result_bind, field.
  repeat case_match; try discriminate.
  intros [= <-]. simplify_eq. split.
  - apply no_unexpected_dom; [exact Hn|].
    intros f Hf. unfold Pipe.fields in Hf. one_of_fields Hf; eauto.
  - exists kw. simpl. tauto.
Qed.

Lemma PipeData_init_Ok kw d :
  PipeData.init kw = Ok d ->
  dom kw = (list_to_set PipeData.fields : gset string) /\ pipe_data_of (VDict kw) d.
Proof.
  unfold PipeData.init.
  destruct (no_unexpected PipeData.fields kw) eqn:Hn; [|discriminate].
  unfold mbind, result_bind, field.
  repeat case_match; try discriminate.
  intros [= <-]. simplify_eq. split.
  - apply no_unexpected_dom; [exact Hn|].
    intros f Hf. unfold PipeData.fields in Hf. one_of_fields Hf; eauto.
  - exists kw. simpl. tauto.
Qed.

Lemma Engine_init_Ok kw e : Engine.init kw = Ok e -> engine_of (VDict kw) e.
Proof.
  unfold Engine.init. destruct (no_unexpected Engine.fields kw); [|discriminate].
  unfold mbind, result_bind, field.
  repeat case_match; try discriminate.
  intros [= <-]. simplify_eq. exists kw. simpl. tauto.
Qed.

Lemma Column_init_Ok kw c : Column.init kw = Ok c -> column_of (VDict kw) c.
Proof.
  unfold Column.init. destruct (no_unexpected Column.fields kw); [|discriminate].
  unfold mbind, result_bind, field.
  repeat case_match; try discriminate.
  intros [= <-]. simplify_eq. exists kw. simpl. tauto.
Qed.

Lemma kwargs_Ok v kw : kwargs v = Ok kw -> v = VDict kw.
Proof. destruct v; simpl; intros H; try discriminate H. congruence. Qed.

Lemma pipe_of_unique v p p' : pipe_of v p -> pipe_of v p' -> p = p'.
Proof.
  intros (m & -> & H1 & H2 & H3 & H4 & H5 & H6) (m' & [= <-] & H1' & H2' & H3' & H4' & H5' & H6').
  destruct p, p'. simpl in *. congruence.
Qed.

Lemma pipe_data_of_unique v d d' : pipe_data_of v d -> pipe_data_of v d' -> d = d'.
Proof.
  intros (m & -> & H1 & H2 & H3 & H4) (m' & [= <-] & H1' & H2' & H3' & H4').
  destruct d, d'. simpl in *. congruence.
Qed.

(** X8: [Pipe.from_dict] and [PipeData.from_dict] succeed on exactly the
    objects whose key set is the record's field set, and the record they
    return has the object's values, each under its own name, unchanged and
    of any type. *)
Theorem from_dict_succeeds_exactly_on_the_field_set (v : value) :
  (forall p, Pipe.from_dict v = Ok p <->
             exactly Pipe.fields v = true /\ pipe_of v p) /\
  (forall d, PipeData.from_dict v = Ok d <->
             exactly PipeData.fields v = true /\ pipe_data_of v d).
Proof.
  split.
  - intros p. split.
    + destruct v as [| | | | | |m]; try (intros H; discriminate H).
      change (Pipe.from_dict (VDict m)) with (Pipe.init m).
      intros H. apply Pipe_init_Ok in H as [Hdom Hof].
      split; [apply bool_decide_eq_true, Hdom | exact Hof].
    + intros [Hex Hof].
      destruct (Pipe_from_dict_exact v Hex) as (p' & Hp' & Hof').
      rewrite Hp'. f_equal. exact (pipe_of_unique v p' p Hof' Hof).
  - intros d. split.
    + destruct v as [| | | | | |m]; try (intros H; discriminate H).
      change (PipeData.from_dict (VDict m)) with (PipeData.init m).
      intros H. apply PipeData_init_Ok in H as [Hdom Hof].
      split; [apply bool_decide_eq_true, Hdom | exact Hof].
    + intros [Hex Hof].
      destruct (PipeData_from_dict_exact v Hex) as (d' & Hd' & Hof').
      rewrite Hd'. f_equal. exact (pipe_data_of_unique v d' d Hof' Hof).
Qed.

(** X9: whenever [DataSource.from_dict] returns a record, its argument was
    an object and every field of the record is the value the object has
    under that key: the engine object's four values, and one [Column] per
    element of what iterating [columns] yields, in order. *)
Theorem data_source_fields_are_copied (v : value) (d : DataSource.t) :
  DataSource.from_dict v = Ok d ->
  exists m ev cs cl, v = VDict m /\
    m !! "id" = Some (DataSource.id d) /\
    m !! "name" = Some (DataSource.name d) /\
    m !! "engine" = Some ev /\ engine_of ev (DataSource.engine d) /\
    m !! "columns" = Some cs /\ iter cs = Ok cl /\
    Forall2 column_of cl (DataSource.columns d) /\
    m !! "indexes" = Some (DataSource.indexes d) /\
    m !! "new_columns_detected" = Some (DataSource.new_columns_detected d) /\
    m !! "quarantine_rows" = Some (DataSource.quarantine_rows d).
Proof.
  destruct v as [| | | | | |m]; try (intros H; discriminate H).
  unfold DataSource.from_dict, getitem, mbind, result_bind.
  destruct (m !! "engine") as [ev|] eqn:He; cbv beta iota; [|discriminate].
  destruct (kwargs ev) as [ekw|] eqn:Hk; cbv beta iota; [|discriminate].
  destruct (Engine.init ekw) as [eng|] eqn:Hinit; cbv beta iota; [|discriminate].
  destruct (m !! "columns") as [cs|] eqn:Hc; cbv beta iota; [|discriminate].
  destruct (iter cs) as [cl|] eqn:Hit; cbv beta iota; [|discriminate].
  destruct (comprehension _ cl) as [cols|] eqn:Hcomp; cbv beta iota; [|discriminate].
  destruct (m !! "id") as [vi|] eqn:Hi; cbv beta iota; [|discriminate].
  destruct (m !! "name") as [vn|] eqn:Hn; cbv beta iota; [|discriminate].
  destruct (m !! "indexes") as [vx|] eqn:Hx; cbv beta iota; [|discriminate].
  destruct (m !! "new_columns_detected") as [vd|] eqn:Hd; cbv beta iota;
    [|discriminate].
  destruct (m !! "quarantine_rows") as [vq|] eqn:Hq; cbv beta iota;
    [|discriminate].
  intros [= <-]. exists m, ev, cs, cl. simpl.
  apply kwargs_Ok in Hk as ->. apply Engine_init_Ok in Hinit.
  apply comprehension_Ok in Hcomp.
  repeat split; try assumption; try reflexivity.
  eapply Forall2_impl; [exact Hcomp|].
  intros col c Hcol. simpl in Hcol.
  destruct (kwargs col) as [ckw|] eqn:Hck; [|discriminate].
  apply kwargs_Ok in Hck as ->. apply Column_init_Ok, Hcol.
Qed.

Lemma data_source_fields_are_copied_witness :
  exists d,
    DataSource.from_dict (Fixture.data_source "d1") = Ok d /\
    exists m ev cs cl, Fixture.data_source "d1" = VDict m /\
      m !! "id" = Some (DataSource.id d) /\
      m !! "name" = Some (DataSource.name d) /\
      m !! "engine" = Some ev /\ engine_of ev (DataSource.engine d) /\
      m !! "columns" = Some cs /\ iter cs = Ok cl /\
      Forall2 column_of cl (DataSource.columns d) /\
      m !! "indexes" = Some (DataSource.indexes d) /\
      m !! "new_columns_detected" = Some (DataSource.new_columns_detected d) /\
      m !! "quarantine_rows" = Some (DataSource.quarantine_rows d).
Proof.
  eexists. split.
  - vm_compute. reflexivity.
  - apply data_source_fields_are_copied. vm_compute. reflexivity.
Defined.

Lemma DataSource_columns_raise m cs :
  m !! "columns" = Some cs ->
  is_Raise (cols ← iter cs;
            comprehension (fun col => ckw ← kwargs col; Column.init ckw) cols) ->
  is_Raise (DataSource.from_dict (VDict m)).
Proof.
  intros Hc Hr. unfold DataSource.from_dict, getitem. rewrite Hc.
  unfold mbind, result_bind in *.
  destruct (m !! "engine") as [ev|]; cbv beta iota; [|exact I].
  destruct (kwargs ev) as [ekw|]; cbv beta iota; [|exact I].
  destruct (Engine.init ekw) as [eng|]; cbv beta iota; [|exact I].
  destruct (iter cs) as [cl|]; cbv beta iota in *; [|exact I].
  destruct (comprehension _ cl); [destruct Hr | exact I].
Qed.

Lemma comprehension_string_raises {B} (f : gmap string value -> result B)
    (s : string) (l : list value) :
  is_Raise (comprehension (fun col => ckw ← kwargs col; f ckw) (VStr s :: l)).
Proof. exact I. Qed.

(** X10: [DataSource.from_dict] only iterates [columns], it does not ask
    for a list: an empty string or an empty object there is taken as no
    columns, with the same result as an empty list; a non-empty string or
    object, null, a boolean or a number make construction raise. *)
Theorem columns_are_only_iterated (m : gmap string value) (cs : value) :
  m !! "columns" = Some cs ->
  (cs = VStr EmptyString \/ cs = VDict ∅ ->
     DataSource.from_dict (VDict m) =
     DataSource.from_dict (VDict (<["columns" := VList []]> m))) /\
  (not_iterable cs -> is_Raise (DataSource.from_dict (VDict m))) /\
  (forall s, cs = VStr s -> s <> EmptyString ->
     is_Raise (DataSource.from_dict (VDict m))) /\
  (forall cm, cs = VDict cm -> cm <> ∅ ->
     is_Raise (DataSource.from_dict (VDict m))).
Proof.
  intros Hc. repeat split.
  - intros Hcs. unfold DataSource.from_dict, getitem.
    rewrite lookup_insert_eq, !lookup_insert_ne by discriminate.
    rewrite Hc. destruct Hcs as [-> | ->]; reflexivity.
  - intros Hcs. apply (DataSource_columns_raise m cs Hc).
    destruct cs; simpl in Hcs; try exact I; destruct Hcs.
  - intros s -> Hs. apply (DataSource_columns_raise m _ Hc).
    destruct s as [|c s]; [congruence|]. apply comprehension_string_raises.
  - intros cm -> Hcm. apply (DataSource_columns_raise m _ Hc).
    simpl. destruct (map_to_list cm) as [|[k x] l] eqn:Hl.
    + apply map_to_list_empty_iff in Hl. congruence.
    + apply comprehension_string_raises.
Qed.

Lemma columns_are_only_iterated_witness :
  <["columns" := VStr EmptyString]> (Fixture.data_source_kw "d1") !! "columns"
    = Some (VStr EmptyString) /\
  DataSource.from_dict
    (VDict (<["columns" := VStr EmptyString]> (Fixture.data_source_kw "d1"))) =
  DataSource.from_dict
    (VDict (<["columns" := VList []]>
              (<["columns" := VStr EmptyString]> (Fixture.data_source_kw "d1")))).
Proof.
  assert (Hc : <["columns" := VStr EmptyString]> (Fixture.data_source_kw "d1")
                 !! "columns" = Some (VStr EmptyString)) by reflexivity.
  split; [exact Hc|].
  destruct (columns_are_only_iterated
              (<["columns" := VStr EmptyString]> (Fixture.data_source_kw "d1"))
              (VStr EmptyString) Hc) as (H & _).
  apply H. left. reflexivity.
Defined.

(** ** Sessions *)

Lemma session_cons server c cs st :
  session server (c :: cs) st = session server cs (step server c st).
Proof. reflexivity. Qed.

Lemma step_closed server c st : step server c (closed st) = closed st.
Proof.
  destruct c as [o|]; simpl.
  - rewrite run_closed by apply closed_is_closed. reflexivity.
  - reflexivity.
Qed.

Lemma session_closed server cs st : session server cs (closed st) = closed st.
Proof.
  induction cs as [|c cs IH]; simpl; [reflexivity|].
  rewrite step_closed. exact IH.
Qed.

(** X11: closing is final. After [close], any sequence of operations and
    further closes leaves everything as the first [close] left it: the
    client stays closed, a second [close] does nothing, and no request is
    sent. *)
Theorem close_is_final
    (server : list Request -> Request -> Reply) (cs : list call) (st : State) :
  session server cs (closed st) = closed st /\
  is_closed (client (self (session server cs (closed st)))) = true /\
  sent (session server cs (closed st)) = sent st.
Proof.
  rewrite session_closed. repeat split.
Qed.

Lemma after_is_open req st : is_open st -> is_open (after req st).
Proof. intros H. exact H. Qed.

(** X12: in a session on an open client the requests sent are, after those
    already sent, exactly one per operation invoked before the first
    [close], in the order of invocation, each the request of its operation
    for the client as it was at the start. It makes no difference what the
    server answers: an operation that raises has sent its request, and one
    that fails does not stop the next from sending. *)
Theorem one_request_per_operation
    (server : list Request -> Request -> Reply) (cs : list call) (st : State) :
  is_open st ->
  sent (session server cs st) =
    (sent st ++
     map (fun o => request_of (self st) (endpoint_of o) (params_of o))
       (invoked_before_close cs))%list /\
  forall server', sent (session server' cs st) = sent (session server cs st).
Proof.
  assert (H : forall srv cs st, is_open st ->
            sent (session srv cs st) =
              (sent st ++
               map (fun o => request_of (self st) (endpoint_of o) (params_of o))
                 (invoked_before_close cs))%list).
  { clear. intros srv cs. induction cs as [|[o|] cs IH]; intros st Hopen.
    - symmetry. apply app_nil_r.
    - rewrite session_cons. unfold step. rewrite run_open by exact Hopen.
      unfold snd. rewrite IH by exact Hopen.
      unfold after. simpl. rewrite <- app_assoc. reflexivity.
    - rewrite session_cons. change (step srv Close st) with (closed st).
      rewrite session_closed. symmetry. apply app_nil_r. }
  intros Hopen. split; [apply H, Hopen|].
  intros server'. rewrite !H by exact Hopen. reflexivity.
Qed.

Lemma one_request_per_operation_witness :
  is_open Fixture.st0 /\
  req_url <$>
    sent (session (Fixture.always (Fixture.reply 404 None))
            [Invoke ListPipes; Invoke (GetPipe "p1"); Close; Invoke ListPipes]
            Fixture.st0) =
    ["https://api.example.test/v0/pipes"; "https://api.example.test/v0/pipes/p1"].
Proof.
  split; [reflexivity|].
  rewrite (proj1 (one_request_per_operation
                    (Fixture.always (Fixture.reply 404 None))
                    [Invoke ListPipes; Invoke (GetPipe "p1"); Close; Invoke ListPipes]
                    Fixture.st0 eq_refl)).
  reflexivity.
Defined.

(** X13: an [async with] scope gives back what its body gives, result or
    exception ([__aexit__] returns nothing, so it suppresses nothing),
    sends no request of its own, and leaves the client closed on both
    paths; entering the scope changes nothing. *)
Theorem scope_returns_body_and_closes {A : Type} (body : IO A) (st : State) :
  __aenter__ st = (Ok tt, st) /\
  fst (async_with body st) = fst (body st) /\
  snd (async_with body st) = closed (snd (body st)) /\
  sent (snd (async_with body st)) = sent (snd (body st)) /\
  is_closed (client (self (snd (async_with body st)))) = true.
Proof.
  rewrite async_with_result. repeat split.
Qed.

(** X14: names go into the path as they are: [get_pipe] with a name ending
    in [.json] sends the very request [get_pipe_data] sends for the name
    without that ending and no keywords; the two differ only in that
    [get_pipe_data] then builds a [PipeData] from the body. *)
Theorem pipe_name_is_not_escaped
    (server : list Request -> Request -> Reply) (st : State) (pipe_name : string) :
  snd (get_pipe_data server pipe_name ∅ st) =
    snd (get_pipe server (pipe_name +:+ ".json") st) /\
  fst (get_pipe_data server pipe_name ∅ st) =
    (body ← fst (get_pipe server (pipe_name +:+ ".json") st);
     PipeData.from_dict body).
Proof.
  unfold get_pipe_data, get_pipe. rewrite bind_lift.
  assert (H : _get server ("v0/pipes/" +:+ pipe_name +:+ ".json") (Some ∅) st =
              _get server ("v0/pipes/" +:+ pipe_name +:+ ".json") None st)
    by reflexivity.
  rewrite H. split; reflexivity.
Qed.

(** ** Which exception *)

Lemma well_formed_data_source_parts m :
  well_formed_data_source (VDict m) = true ->
  exists em eng cl cols vi vn vx vd vq,
    m !! "engine" = Some (VDict em) /\ Engine.init em = Ok eng /\
    m !! "columns" = Some (VList cl) /\
    comprehension (fun col => ckw ← kwargs col; Column.init ckw) cl = Ok cols /\
    m !! "id" = Some vi /\ m !! "name" = Some vn /\
    m !! "indexes" = Some vx /\ m !! "new_columns_detected" = Some vd /\
    m !! "quarantine_rows" = Some vq.
Proof.
  unfold well_formed_data_source.
  intros H. apply andb_true_iff in H as [H Hcols].
  apply andb_true_iff in H as [Hkeys Heng].
  assert (Hget : forall f, In f DataSource.fields -> exists x, m !! f = Some x).
  { intros f Hf. rewrite forallb_forall in Hkeys.
    specialize (Hkeys f Hf). apply bool_decide_eq_true in Hkeys.
    exact Hkeys. }
  destruct (m !! "engine") as [ev|] eqn:He; [|discriminate].
  destruct (m !! "columns") as [[| | | | |cl|]|] eqn:Hc; try discriminate.
  apply exactly_dom in Heng as (em & -> & Hem).
  destruct (Engine_init_exact em Hem) as (eng & Hinit & _).
  destruct (comprehension_total
              (fun col => ckw ← kwargs col; Column.init ckw) column_of cl)
    as (cols & Hcomp & _).
  { intros col Hcol. rewrite forallb_forall in Hcols.
    specialize (Hcols col Hcol). apply exactly_dom in Hcols as (cm & -> & Hcm).
    simpl. apply Column_init_exact, Hcm. }
  destruct (Hget "id") as [vi Hi]; [simpl; tauto|].
  destruct (Hget "name") as [vn Hn]; [simpl; tauto|].
  destruct (Hget "indexes") as [vx Hx]; [simpl; tauto|].
  destruct (Hget "new_columns_detected") as [vd Hd]; [simpl; tauto|].
  destruct (Hget "quarantine_rows") as [vq Hq]; [simpl; tauto|].
  exists em, eng, cl, cols, vi, vn, vx, vd, vq. tauto.
Qed.

(** X15: [DataSource.from_dict] names the key it misses: taking any one of
    its seven keys out of a well-formed entry makes it raise [KeyError]
    for exactly that key; an argument that is not an object raises
    [TypeError]. *)
Theorem data_source_missing_key_is_named (m : gmap string value) (k : string) :
  well_formed_data_source (VDict m) = true ->
  In k DataSource.fields ->
  DataSource.from_dict (VDict (delete k m)) = Raise (KeyError k) /\
  forall v, not_an_object v -> DataSource.from_dict v = Raise TypeError.
Proof.
  intros Hwf Hk. split.
  - destruct (well_formed_data_source_parts m Hwf)
      as (em & eng & cl & cols & vi & vn & vx & vd & vq &
          He & Hinit & Hc & Hcomp & Hi & Hn & Hx & Hd & Hq).
    unfold DataSource.from_dict, getitem.
    unfold DataSource.fields in Hk. one_of_fields Hk;
      rewrite ?lookup_delete_eq, ?lookup_delete_ne by discriminate;
      rewrite ?He, ?Hc, ?Hi, ?Hn, ?Hx, ?Hd, ?Hq; simpl;
      rewrite ?Hinit; simpl; rewrite ?Hcomp; reflexivity.
  - intros v Hv. destruct v; simpl in Hv; try reflexivity. destruct Hv.
Qed.

Lemma data_source_missing_key_is_named_witness :
  well_formed_data_source (VDict (Fixture.data_source_kw "d1")) = true /\
  In "indexes" DataSource.fields /\
  DataSource.from_dict (VDict (delete "indexes" (Fixture.data_source_kw "d1"))) =
    Raise (KeyError "indexes").
Proof.
  assert (Hwf : well_formed_data_source (VDict (Fixture.data_source_kw "d1")) = true)
    by (vm_compute; reflexivity).
  assert (Hk : In "indexes" DataSource.fields) by (simpl; tauto).
  split; [exact Hwf|]. split; [exact Hk|].
  exact (proj1 (data_source_missing_key_is_named
                  (Fixture.data_source_kw "d1") "indexes" Hwf Hk)).
Defined.

Lemma iter_strings_raise {B} (f : value -> result B) (cs : value) :
  (forall s, f (VStr s) = Raise TypeError) ->
  (cs = VStr EmptyString \/ cs = VDict ∅ ->
     (l ← iter cs; comprehension f l) = Ok []) /\
  (forall s, cs = VStr s -> s <> EmptyString ->
     (l ← iter cs; comprehension f l) = Raise TypeError) /\
  (forall cm, cs = VDict cm -> cm <> ∅ ->
     (l ← iter cs; comprehension f l) = Raise TypeError).
Proof.
  intros Hf. repeat split.
  - intros [-> | ->]; reflexivity.
  - intros s -> Hs. destruct s as [|c s]; [congruence|].
    simpl. rewrite Hf. reflexivity.
  - intros cm -> Hcm. simpl.
    destruct (map_to_list cm) as [|[k x] l] eqn:Hl.
    + apply map_to_list_empty_iff in Hl. congruence.
    + simpl. rewrite Hf. reflexivity.
Qed.

(** X16: the listing operations only iterate what is under their key: on a
    success answer an empty string or an empty object there gives the
    empty list, as an empty array does, and a non-empty string or object
    raises [TypeError] (its elements are strings, not objects). *)
Theorem listing_only_iterates
    (server : list Request -> Request -> Reply) (st : State)
    (r : Response) (m : gmap string value) (x : value) :
  is_open st ->
  (forall req, server (sent st) req = Answer r) ->
  is_success r = true -> json r = Some (VDict m) ->
  (m !! "datasources" = Some x ->
     (x = VStr EmptyString \/ x = VDict ∅ ->
        fst (list_data_sources server st) = Ok []) /\
     (forall s, x = VStr s -> s <> EmptyString ->
        fst (list_data_sources server st) = Raise TypeError) /\
     (forall cm, x = VDict cm -> cm <> ∅ ->
        fst (list_data_sources server st) = Raise TypeError)) /\
  (m !! "pipes" = Some x ->
     (x = VStr EmptyString \/ x = VDict ∅ ->
        fst (list_pipes server st) = Ok []) /\
     (forall s, x = VStr s -> s <> EmptyString ->
        fst (list_pipes server st) = Raise TypeError) /\
     (forall cm, x = VDict cm -> cm <> ∅ ->
        fst (list_pipes server st) = Raise TypeError)).
Proof.
  intros Hopen Hsrv Hs Hj.
  rewrite (list_data_sources_on_body server st r _ Hopen Hsrv Hs Hj).
  rewrite (list_pipes_on_body server st r _ Hopen Hsrv Hs Hj).
  split; intros Hm; unfold getitem; rewrite Hm;
    apply iter_strings_raise; intros s; reflexivity.
Qed.

Lemma listing_only_iterates_witness :
  is_open Fixture.st0 /\
  fst (list_pipes
         (Fixture.always
            (Fixture.reply 200 (Some (Fixture.obj [("pipes", VStr "ab")]))))
         Fixture.st0) = Raise TypeError.
Proof.
  split; [reflexivity|].
  destruct (listing_only_iterates
              (Fixture.always
                 (Fixture.reply 200 (Some (Fixture.obj [("pipes", VStr "ab")]))))
              Fixture.st0 (Fixture.reply 200 _)
              (list_to_map [("pipes", VStr "ab")]) (VStr "ab")
              eq_refl (fun _ => eq_refl) eq_refl eq_refl) as [_ H].
  destruct (H eq_refl) as (_ & Hs & _).
  apply (Hs "ab"); [reflexivity | discriminate].
Defined.
